(** * Gemini chatbot: the proxy service (server/index.js) and the chat
      client (src/app/page.js), embedded and verified.

    The definitions come first:
    - [Js]: the JavaScript values and built-ins the two files rely on
      (JSON values, truthiness, property reads, [trim], [slice]);
    - [Eff]: a state-and-exception monad for handlers, with [try], [catch]
      and [finally];
    - [Server]: the Express handlers of server/index.js, run against an
      arbitrary external API and a file system;
    - [Client]: the React component of src/app/page.js as a transition
      system over its state and the browser's local storage;
    - [Samples]: concrete requests and collaborators.
    The proofs follow in [JsFacts], [ServerProofs] and [ClientProofs]. *)

From Stdlib Require Import ZArith QArith String Ascii.
From stdpp Require Import base option list gmap.

Local Open Scope string_scope.
Local Open Scope list_scope.
Local Open Scope Z_scope.
Set Warnings "-register-all".

(* ===================================================================== *)
(** * JavaScript values                                                   *)
(* ===================================================================== *)

Module Js.

(** A JavaScript string is a sequence of UTF-16 code units. *)
Abbreviation jsstring := (list N).

(** Source-text literals are ASCII; [str] gives their code units. *)
Definition str (s : string) : jsstring :=
  map N_of_ascii (list_ascii_of_string s).

(** Numbers.  Every finite double is a rational, so finite numbers are
    modelled in [Q]; the program only negates, truncates and compares
    them with zero, all of which are exact on doubles. *)
Inductive Number :=
  | NaN
  | Infinity (negative : bool)
  | Finite (q : Q).

Definition num (z : Z) : Number := Finite (inject_Z z).

(** Values that JSON can carry.  An object is the list of its own
    properties; a property is read by its first occurrence. *)
Inductive JValue :=
  | JNull
  | JBool (b : bool)
  | JNum (n : Number)
  | JStr (s : jsstring)
  | JArr (elems : list JValue)
  | JObj (props : list (jsstring * JValue)).

(** A value or [undefined]. *)
Abbreviation jsval := (option JValue).

(** Thrown values: [Error] objects, of which the program reads only
    [message]. *)
Record JsError := { message : jsval }.

(** [new Error(m)] *)
Definition ErrorWith (m : string) : JsError := {| message := Some (JStr (str m)) |}.

(** A [TypeError] raised by the engine, with the message as V8 words it. *)
Definition TypeError (m : string) : JsError := ErrorWith m.

(** ** Truthiness, [||] *)

Definition number_truthy (n : Number) : bool :=
  match n with
  | NaN => false
  | Infinity _ => true
  | Finite q => negb (Qnum q =? 0)
  end.

Definition truthy (v : jsval) : bool :=
  match v with
  | None => false
  | Some JNull => false
  | Some (JBool b) => b
  | Some (JNum n) => number_truthy n
  | Some (JStr s) => negb (bool_decide (s = []))
  | Some (JArr _) | Some (JObj _) => true
  end.

(** [a || b] *)
Definition or_else (a b : jsval) : jsval := if truthy a then a else b.

(** ** Property reads

    [own_prop] is the lookup in an object's own properties.  [get_prop v k]
    is [v.k] for a non-nullish [v] and one of the names this program reads
    (message, history, historyLimit, prompt, role, text, output, length):
    none of them is an array index or a property of a built-in prototype
    apart from [length] on arrays and strings. *)
Fixpoint own_prop (props : list (jsstring * JValue)) (k : jsstring) : jsval :=
  match props with
  | [] => None
  | (k', v) :: rest => if bool_decide (k' = k) then Some v else own_prop rest k
  end.

Definition get_prop (v : JValue) (k : string) : jsval :=
  match v with
  | JObj props => own_prop props (str k)
  | JArr elems =>
      if bool_decide (k = "length") then Some (JNum (num (Z.of_nat (length elems))))
      else None
  | JStr s =>
      if bool_decide (k = "length") then Some (JNum (num (Z.of_nat (length s))))
      else None
  | JNull | JBool _ | JNum _ => None
  end.

(** ** String.prototype.trim

    The code units [trim] strips: WhiteSpace (TAB, VT, FF, ZWNBSP and the
    space separators) and LineTerminator (LF, CR, LS, PS). *)
Definition is_trim_space (c : N) : bool :=
  bool_decide (c ∈ [9; 10; 11; 12; 13; 32; 160; 5760; 8232; 8233; 8239; 8287;
                    12288; 65279]%N)
  || ((8192 <=? c)%N && (c <=? 8202)%N).

Fixpoint trimStart (s : jsstring) : jsstring :=
  match s with
  | [] => []
  | c :: rest => if is_trim_space c then trimStart rest else s
  end.

Definition trimEnd (s : jsstring) : jsstring := rev (trimStart (rev s)).

Definition trim (s : jsstring) : jsstring := trimEnd (trimStart s).

(** A string made of strippable code units only (the empty string is). *)
Definition blank (s : jsstring) : bool := forallb is_trim_space s.

(** ** Array.prototype.slice / String.prototype.slice with one argument *)

Inductive IntegerOrInfinity :=
  | MinusInfinity
  | Integer (z : Z)
  | PlusInfinity.

Definition ToIntegerOrInfinity (n : Number) : IntegerOrInfinity :=
  match n with
  | NaN => Integer 0
  | Infinity true => MinusInfinity
  | Infinity false => PlusInfinity
  | Finite q => Integer (Z.quot (Qnum q) (Z.pos (Qden q)))
  end.

(** [l.slice(start)]: the elements from index [k] to the end, where a
    negative [start] counts from the end and is clamped at 0. *)
Definition slice_start {A} (l : list A) (start : Number) : nat :=
  let len := Z.of_nat (length l) in
  match ToIntegerOrInfinity start with
  | MinusInfinity => 0%nat
  | Integer rel =>
      if rel <? 0 then Z.to_nat (Z.max (len + rel) 0)
      else Z.to_nat (Z.min rel len)
  | PlusInfinity => length l
  end.

Definition slice {A} (l : list A) (start : Number) : list A :=
  drop (slice_start l start) l.

(** Unary minus on a number. *)
Definition negate (n : Number) : Number :=
  match n with
  | NaN => NaN
  | Infinity s => Infinity (negb s)
  | Finite q => Finite (Qopp q)
  end.

(** [n > 0] *)
Definition number_gt0 (n : Number) : bool :=
  match n with
  | NaN => false
  | Infinity s => negb s
  | Finite q => 0 <? Qnum q
  end.

(** [typeof v] *)
Definition typeof (v : jsval) : string :=
  match v with
  | None => "undefined"
  | Some JNull | Some (JArr _) | Some (JObj _) => "object"
  | Some (JBool _) => "boolean"
  | Some (JNum _) => "number"
  | Some (JStr _) => "string"
  end.

(** [v === null] *)
Definition is_null (v : JValue) : bool :=
  match v with JNull => true | _ => false end.

(** [v === "lit"] *)
Definition strict_eq_str (v : jsval) (lit : string) : bool :=
  match v with
  | Some (JStr s) => bool_decide (s = str lit)
  | _ => false
  end.

End Js.

(* ===================================================================== *)
(** * Effects: state and exceptions                                       *)
(* ===================================================================== *)

Module Eff.
Import Js.

(** A computation over a state [S] that returns a value or throws. *)
Definition M (S A : Type) : Type := S → (JsError + A) * S.

#[global] Instance M_ret {S} : MRet (M S) := λ A a s, (inr a, s).

#[global] Instance M_bind {S} : MBind (M S) := λ A B k c s,
  match c s with
  | (inr a, s') => k a s'
  | (inl e, s') => (inl e, s')
  end.

Definition throw {S A} (e : JsError) : M S A := λ s, (inl e, s).

Definition modify {S} (f : S → S) : M S unit := λ s, (inr tt, f s).

Definition gets {S A} (f : S → A) : M S A := λ s, (inr (f s), s).

(** [try { body } catch (error) { handler }] *)
Definition try_catch {S A} (body : M S A) (handler : JsError → M S A) : M S A :=
  λ s, match body s with
       | (inl e, s') => handler e s'
       | (inr a, s') => (inr a, s')
       end.

(** [try { body } finally { final }]: [final] runs on both exits; if it
    throws, its exception replaces the outcome of [body]. *)
Definition try_finally {S A} (body : M S A) (final : M S unit) : M S A :=
  λ s, match body s with
       | (r, s') =>
           match final s' with
           | (inl e, s'') => (inl e, s'')
           | (inr _, s'') => (r, s'')
           end
       end.

(** Reading or destructuring properties of [base] throws when it is
    [null] or [undefined]. *)
Definition objectCoercible {S} (base : jsval) (complaint : string) : M S JValue :=
  match base with
  | None | Some JNull => throw (TypeError complaint)
  | Some v => mret v
  end.

(** [base.k] *)
Definition member {S} (base : jsval) (k : string) (complaint : string) : M S jsval :=
  v ← objectCoercible base complaint;
  mret (get_prop v k).

End Eff.

(* ===================================================================== *)
(** * The proxy service (server/index.js)                                 *)
(* ===================================================================== *)

Module Server.
Import Js Eff.

(** ** Data *)

(** A part of the content sent upstream: [{ text }] or
    [{ inlineData: { data, mimeType } }]. *)
Inductive Part :=
  | TextPart (text : jsval)
  | InlineData (data : jsstring) (mimeType : jsstring).

(** An entry of the chat history as the external API takes it:
    [{ role, parts: [{ text }] }]. *)
Record Content := { role : jsval; parts : list Part }.

(** The two calls made to the external API. *)
Inductive UpstreamCall :=
  | GenerateContent (model : string) (temperature : option Q) (contents : list Part)
  | ChatSendMessage (model : string) (history : list Content) (message : jsval).

(** What a call comes back with: a response whose [text] is read, or an
    exception. *)
Inductive UpstreamResult :=
  | Resolves (text : jsval)
  | Rejects (error : JsError).

(** The object passed to [res.json]: [{ output }] or [{ error }]. *)
Inductive Body :=
  | Output (output : jsval)
  | Error (error : jsval).

Record Response := { status : Z; json : Body }.

(** The file multer stored for the request. *)
Record UploadedFile := { path : jsstring; mimetype : jsstring }.

(** [req]: [req.body] ([undefined] when no body was parsed) and [req.file]
    ([undefined] when no file was uploaded). *)
Record Request := { body : jsval; file : option UploadedFile }.

Inductive Event :=
  | ReadFile (p : jsstring)
  | Unlink (p : jsstring)
  | Upstream (call : UpstreamCall)
  | Send (r : Response)
  | ConsoleError (e : JsError).

(** The world a handler acts on: the files on disk, and what it has done
    so far, oldest first. *)
Record World := { files : gmap jsstring (list Byte.byte); trace : list Event }.

Definition emit (ev : Event) : M World unit :=
  modify (λ w, {| files := files w; trace := trace w ++ [ev] |}).

(** [res.status(code).json(body)]; [res.json(body)] is [send 200 body]. *)
Definition send (code : Z) (b : Body) : M World unit :=
  emit (Send {| status := code; json := b |}).

Definition lit (s : string) : jsval := Some (JStr (str s)).

Definition model : string := "gemini-2.0-flash".

(** [fs.readFileSync(p)] *)
Definition readFileSync (p : jsstring) : M World (list Byte.byte) :=
  λ w, match files w !! p with
       | Some contents => (inr contents, {| files := files w; trace := trace w ++ [ReadFile p] |})
       | None => (inl (ErrorWith "ENOENT: no such file or directory"), w)
       end.

(** [fs.unlinkSync(p, callback)]: the synchronous call ignores the
    callback and throws when the file is not there. *)
Definition unlinkSync (p : jsstring) : M World unit :=
  λ w, match files w !! p with
       | Some _ => (inr tt, {| files := delete p (files w); trace := trace w ++ [Unlink p] |})
       | None => (inl (ErrorWith "ENOENT: no such file or directory"), w)
       end.

Definition deleteUploadedFile (filePath : jsstring) : M World unit :=
  unlinkSync filePath.

Section Handlers.

(** The external generative API. *)
Variable genAI : UpstreamCall → UpstreamResult.

(** The runtime's conversions: [StringToNumber], [Buffer.toString("base64")],
    and the string [ToPrimitive] yields for an array or object ([None] when
    it throws a [TypeError]). *)
Variable StringToNumber : jsstring → Number.
Variable ObjectToPrimitive : JValue → option jsstring.
Variable toBase64 : list Byte.byte → jsstring.

Definition call (c : UpstreamCall) : M World jsval :=
  emit (Upstream c) ;;
  match genAI c with
  | Resolves text => mret text
  | Rejects error => throw error
  end.

(** [ToNumber] *)
Definition ToNumber (v : jsval) : M World Number :=
  match v with
  | None => mret NaN
  | Some JNull => mret (num 0)
  | Some (JBool b) => mret (num (if b then 1 else 0))
  | Some (JNum n) => mret n
  | Some (JStr s) => mret (StringToNumber s)
  | Some (JArr _ as o) | Some (JObj _ as o) =>
      match ObjectToPrimitive o with
      | Some s => mret (StringToNumber s)
      | None => throw (TypeError "Cannot convert object to primitive value")
      end
  end.

(** *** POST /generate-text *)
Definition generateText (req : Request) : M World unit :=
  if negb (truthy (body req)) then
    send 400 (Error (lit "No body provided"))
  else
    try_catch
      (prompt ← member (body req) "prompt"
                  "Cannot destructure property 'prompt' of 'req.body' as it is undefined.";
       if negb (truthy prompt) then
         send 400 (Error (lit "Prompt is required"))
       else
         text ← call (GenerateContent model (Some (1 # 2)%Q) [TextPart prompt]);
         send 200 (Output text))
      (λ error, send 500 (Error (message error))).

(** *** POST /generate-from-image, /generate-from-document,
        /generate-from-audio

    The three handlers are the same statements with different literals
    (the document and audio handlers encode the buffer after deleting the
    file instead of before, which no effect separates). *)
Definition generateFromFile (defaultPrompt fallbackMime missing : string)
    (req : Request) : M World unit :=
  (* const prompt = req.body.prompt || defaultPrompt; *)
  given ← member (body req) "prompt" "Cannot read properties of undefined (reading 'prompt')";
  let prompt := or_else given (lit defaultPrompt) in
  (* const buffer = fs.readFileSync(req.file.path); *)
  filePath ← match file req with
             | Some f => mret (path f)
             | None => throw (TypeError "Cannot read properties of undefined (reading 'path')")
             end;
  buffer ← readFileSync filePath;
  let base64Data := toBase64 buffer in
  deleteUploadedFile filePath ;;
  (* const mimeType = req.file.mimetype || fallbackMime; *)
  let mimeType := match file req with
                  | Some f => if bool_decide (mimetype f = []) then str fallbackMime else mimetype f
                  | None => str fallbackMime
                  end in
  let filePart := InlineData base64Data mimeType in
  (* if (!req.file) *)
  if negb (bool_decide (is_Some (file req))) then
    send 400 (Error (lit missing))
  else
    try_catch
      (text ← call (GenerateContent model None [TextPart prompt; filePart]);
       send 200 (Output text))
      (λ error, send 500 (Error (message error))).

Definition generateFromImage : Request → M World unit :=
  generateFromFile "Describe the image" "image/png" "No image file provided".

Definition generateFromDocument : Request → M World unit :=
  generateFromFile "Summarize the document" "application/pdf" "No document file provided".

Definition generateFromAudio : Request → M World unit :=
  generateFromFile "Transcribe the audio" "audio/mpeg" "No audio file provided".

(** *** POST /chat *)

(** [typeof message !== "string" || message.trim() === ""] *)
Definition invalidMessage (message : jsval) : bool :=
  negb (bool_decide (typeof message = "string"))
  || match message with
     | Some (JStr s) => bool_decide (trim s = [])
     | _ => true
     end.

(** The callback of [history.every]. *)
Definition validEntry (msg : JValue) : bool :=
  bool_decide (typeof (Some msg) = "object")
  && negb (is_null msg)
  && (strict_eq_str (get_prop msg "role") "user"
      || strict_eq_str (get_prop msg "role") "model")
  && bool_decide (typeof (get_prop msg "text") = "string")
  && match get_prop msg "text" with
     | Some (JStr s) => negb (bool_decide (trim s = []))
     | _ => false
     end.

(** [Array.isArray(history) && history.every(...)] *)
Definition isValidHistory (history : JValue) : bool :=
  match history with
  | JArr entries => forallb validEntry entries
  | _ => false
  end.

(** [history.slice(-historyLimit)]: the method is looked up, the argument
    evaluated, and the call made. *)
Definition sliceHistory (history historyLimit : JValue) : M World JValue :=
  match history with
  | JNull => throw (TypeError "Cannot read properties of null (reading 'slice')")
  | _ =>
      n ← ToNumber (Some historyLimit);
      match history with
      | JArr entries => mret (JArr (slice entries (negate n)))
      | JStr s => mret (JStr (slice s (negate n)))
      | _ => throw (TypeError "history.slice is not a function")
      end
  end.

(** The callback of [recentHistory.map]. *)
Definition formatEntry (msg : JValue) : M World Content :=
  r ← member (Some msg) "role" "Cannot read properties of null (reading 'role')";
  t ← member (Some msg) "text" "Cannot read properties of null (reading 'text')";
  mret {| role := r; parts := [TextPart t] |}.

Definition formatHistory (recentHistory : JValue) : M World (list Content) :=
  match recentHistory with
  | JArr entries => mapM formatEntry entries
  | _ => throw (TypeError "recentHistory.map is not a function")
  end.

Definition chat (req : Request) : M World unit :=
  (* const { message, history = [], historyLimit = 10 } = req.body; *)
  b ← objectCoercible (body req)
        "Cannot destructure property 'message' of 'req.body' as it is undefined.";
  let message := get_prop b "message" in
  let history := default (JArr []) (get_prop b "history") in
  let historyLimit := default (JNum (num 10)) (get_prop b "historyLimit") in
  if invalidMessage message then
    send 400 (Error (lit "Message is required and must be a non-empty string."))
  else
    (* !isValidHistory && history.length > 0 *)
    reject ← (if negb (isValidHistory history) then
                len ← member (Some history) "length"
                        "Cannot read properties of null (reading 'length')";
                n ← ToNumber len;
                mret (number_gt0 n)
              else mret false);
    if (reject : bool) then
      send 400 (Error (lit
        "Invalid history format. Each message must be an object with 'role' ('user' or 'model') and non-empty 'text'."))
    else
      try_catch
        (recentHistory ← sliceHistory history historyLimit;
         formattedHistory ← formatHistory recentHistory;
         responseText ← call (ChatSendMessage model formattedHistory message);
         send 200 (Output responseText))
        (λ error,
           emit (ConsoleError error) ;;
           send 500 (Error (or_else (Js.message error) (lit "Internal Server Error")))).

(** What [chat] does once the call [c] is made: the events of its [try]
    block after the call, or of its [catch]. *)
Definition relay (c : UpstreamCall) : list Event :=
  match genAI c with
  | Resolves text => [Send {| status := 200; json := Output text |}]
  | Rejects e =>
      [ConsoleError e;
       Send {| status := 500;
               json := Error (or_else (Js.message e) (lit "Internal Server Error")) |}]
  end.

End Handlers.

(** ** Observing a run *)

Definition initial (fs : gmap jsstring (list Byte.byte)) : World :=
  {| files := fs; trace := [] |}.

(** The responses sent, the upstream calls made, in order. *)
Definition responses (w : World) : list Response :=
  omap (λ ev, match ev with Send r => Some r | _ => None end) (trace w).

Definition upstreamCalls (w : World) : list UpstreamCall :=
  omap (λ ev, match ev with Upstream c => Some c | _ => None end) (trace w).

(** ** The specification's vocabulary *)

(** A history entry as the specification asks for it: an object with a
    role in {user, model} and a text that is a string with something
    other than white space in it. *)
Definition wellFormedEntry (e : JValue) : Prop :=
  ∃ props r t,
    e = JObj props
    ∧ own_prop props (str "role") = Some (JStr r)
    ∧ (r = str "user" ∨ r = str "model")
    ∧ own_prop props (str "text") = Some (JStr t)
    ∧ blank t = false.

(** An entry as it is forwarded: its role and its text, as they are. *)
Definition forwarded (e : JValue) : Content :=
  {| role := get_prop e "role"; parts := [TextPart (get_prop e "text")] |}.

(** A valid body of POST /chat: a message with something other than white
    space in it, a history (the empty list when left out) of well-formed
    entries, and a numeric limit (10 when left out). *)
Record ValidChat (b : JValue) (msg : jsstring) (entries : list JValue)
    (limit : Number) : Prop := {
  valid_message : get_prop b "message" = Some (JStr msg);
  valid_nonblank : blank msg = false;
  valid_history : default (JArr []) (get_prop b "history") = JArr entries;
  valid_entries : Forall wellFormedEntry entries;
  valid_limit : default (JNum (num 10)) (get_prop b "historyLimit") = JNum limit
}.

(** The message or prompt a validation finds missing: absent, or a
    string that is empty or, where [blanks] says so, all white space. *)
Definition missingText (blanks : bool) (v : jsval) : Prop :=
  v = None ∨ ∃ s, v = Some (JStr s) ∧ (s = [] ∨ (blanks = true ∧ blank s = true)).

(** A handler answered once, with this status and an error message, and
    called nothing upstream. *)
Definition rejected (code : Z) (r : (JsError + unit) * World) : Prop :=
  fst r = inr tt
  ∧ (∃ m, m ≠ [] ∧ responses (snd r) = [{| status := code; json := Error (Some (JStr m)) |}])
  ∧ upstreamCalls (snd r) = [].

(** Unfolding one layer of the monad in a handler. *)
Ltac monad :=
  cbv [mbind M_bind mret M_ret throw modify gets emit send call
       try_catch try_finally member objectCoercible].

End Server.

(* ===================================================================== *)
(** * The chat client (src/app/page.js)                                   *)
(* ===================================================================== *)

Module Client.
Import Js Eff.

(** ** Data *)

(** An element of the [messages] state: [{ sender, text }]. *)
Record Message := { sender : jsstring; text : jsstring }.

(** An element of the [history] sent to the proxy: [{ role, text }]. *)
Record HistoryEntry := { role : jsstring; entryText : jsstring }.

(** The body of the POST /chat request. *)
Record ChatRequest := {
  message : jsstring;
  history : list HistoryEntry;
  historyLimit : Z
}.

(** The proxy's JSON answer, of which the client reads [output]; the
    proxy sends a string there or leaves it out (server/index.js, the
    [res.json({ output })] calls). *)
Record Answer := { output : option jsstring }.

(** How the [fetch] of a turn ends: the promise rejects, or a response
    arrives with its [ok] flag and a body that parses as JSON ([Some]) or
    does not ([None]). *)
Inductive FetchOutcome :=
  | NetworkFailure
  | Responded (ok : bool) (data : option Answer).

(** The component's state, the item of local storage it mirrors, and the
    request it awaits.  The stored item is represented by the message list
    whose JSON text it holds; [messagesChanged] records that [setMessages]
    ran since the last render, so that the saving effect is due. *)
Record State := {
  messages : list Message;
  isLoading : bool;
  messagesChanged : bool;
  stored : option (list Message);
  inflight : option ChatRequest
}.

(** ** State setters and local storage *)

Definition setMessages (update : list Message → list Message) : M State unit :=
  modify (λ s, {| messages := update (messages s); isLoading := isLoading s;
                  messagesChanged := true; stored := stored s;
                  inflight := inflight s |}).

Definition setIsLoading (b : bool) : M State unit :=
  modify (λ s, {| messages := messages s; isLoading := b;
                  messagesChanged := messagesChanged s; stored := stored s;
                  inflight := inflight s |}).

(** [localStorage.setItem("gemini-chat-history", JSON.stringify(ms))] *)
Definition setItem (ms : list Message) : M State unit :=
  modify (λ s, {| messages := messages s; isLoading := isLoading s;
                  messagesChanged := messagesChanged s; stored := Some ms;
                  inflight := inflight s |}).

(** [localStorage.removeItem("gemini-chat-history")] *)
Definition removeItem : M State unit :=
  modify (λ s, {| messages := messages s; isLoading := isLoading s;
                  messagesChanged := messagesChanged s; stored := None;
                  inflight := inflight s |}).

(** [localStorage.getItem("gemini-chat-history")] *)
Definition getItem : M State (option (list Message)) := gets stored.

(** Starting the [fetch] and suspending at its [await]. *)
Definition fetch (request : ChatRequest) : M State unit :=
  modify (λ s, {| messages := messages s; isLoading := isLoading s;
                  messagesChanged := messagesChanged s; stored := stored s;
                  inflight := Some request |}).

Definition settled : M State unit :=
  modify (λ s, {| messages := messages s; isLoading := isLoading s;
                  messagesChanged := messagesChanged s; stored := stored s;
                  inflight := None |}).

(** ** Effects and rendering *)

(** The effect run on mount: load the saved history, if any. *)
Definition loadEffect : M State unit :=
  savedMessages ← getItem;
  match savedMessages with
  | Some saved => setMessages (λ _, saved)
  | None => mret tt
  end.

(** The effect that depends on [messages]: save the list this render
    was made with. *)
Definition saveEffect (rendered : list Message) : M State unit :=
  setItem rendered.

(** After a handler ran, React renders again and runs the saving effect
    if [messages] was set. *)
Definition render : M State unit :=
  changed ← gets messagesChanged;
  if (changed : bool) then
    rendered ← gets messages;
    modify (λ s, {| messages := messages s; isLoading := isLoading s;
                    messagesChanged := false; stored := stored s;
                    inflight := inflight s |}) ;;
    saveEffect rendered
  else mret tt.

(** Loading the page: fresh component state, first render with
    [messages = []], both effects in order, then the render the load
    caused. *)
Definition mount : M State unit :=
  modify (λ s, {| messages := []; isLoading := false; messagesChanged := false;
                  stored := stored s; inflight := None |}) ;;
  loadEffect ;;
  saveEffect [] ;;
  render.

(** ** Handlers *)

Definition userMessageOf (userMessage : jsstring) : Message :=
  {| sender := str "user"; text := userMessage |}.

Definition modelMessageOf (reply : jsstring) : Message :=
  {| sender := str "model"; text := reply |}.

Definition placeholder : jsstring := str "Failed to fetch response. Please try again.".

Definition toEntry (msg : Message) : HistoryEntry :=
  {| role := sender msg; entryText := text msg |}.

(** [handleSubmit] up to its first [await].  It returns early on a blank
    input; otherwise the request goes out with the messages of the
    current render, without the one just appended. *)
Definition handleSubmit (value : jsstring) : M State unit :=
  let userMessage := trim value in
  if bool_decide (userMessage = []) then mret tt
  else
    messagesForHistory ← gets messages;
    setMessages (λ prev, prev ++ [userMessageOf userMessage]) ;;
    setIsLoading true ;;
    let history := map toEntry messagesForHistory in
    fetch {| message := userMessage; history := history; historyLimit := 10 |}.

(** The rest of [handleSubmit], from the settling of [fetch] on: the
    remainder of the [try] block, its [catch] and its [finally]. *)
Definition handleSubmitResume (outcome : FetchOutcome) : M State unit :=
  try_finally
    (try_catch
       (data ← match outcome with
               | NetworkFailure => throw (TypeError "Failed to fetch")
               | Responded false _ => throw (ErrorWith "Server error")
               | Responded true None => throw (ErrorWith "Unexpected token in JSON")
               | Responded true (Some data) => mret data
               end;
        (* data?.output || "No response from Gemini." *)
        let botReply := match output data with
                        | Some reply => if bool_decide (reply = []) then str "No response from Gemini."
                                        else reply
                        | None => str "No response from Gemini."
                        end in
        setMessages (λ prev, prev ++ [modelMessageOf botReply]))
       (λ error, setMessages (λ prev, prev ++ [modelMessageOf placeholder])))
    (setIsLoading false).

(** The Clear Chat button. *)
Definition clearChat : M State unit :=
  setMessages (λ _, []) ;;
  removeItem.

(** ** The session as a transition system *)

Inductive Action :=
  | Submit (value : jsstring)
  | Settle (outcome : FetchOutcome)
  | ClearChat
  | Reload.

(** The input and the Send button are disabled while [isLoading]; a
    settling needs a request in flight; the Clear Chat button is always
    enabled. *)
Definition dispatch (a : Action) : M State unit :=
  match a with
  | Submit value =>
      loading ← gets isLoading;
      if (loading : bool) then mret tt else handleSubmit value ;; render
  | Settle outcome =>
      pending ← gets inflight;
      match pending with
      | Some _ => settled ;; handleSubmitResume outcome ;; render
      | None => mret tt
      end
  | ClearChat => clearChat ;; render
  | Reload => mount
  end.

Definition step (a : Action) (s : State) : State := snd (dispatch a s).

Definition run (actions : list Action) (s : State) : State :=
  foldl (λ s a, step a s) s actions.

(** A browser that holds [saved] in local storage, before the page loads. *)
Definition browser (saved : option (list Message)) : State :=
  {| messages := []; isLoading := false; messagesChanged := false;
     stored := saved; inflight := None |}.

(** The request as the proxy parses it. *)
Definition entryJson (e : HistoryEntry) : JValue :=
  JObj [(str "role", JStr (role e)); (str "text", JStr (entryText e))].

Definition requestJson (r : ChatRequest) : JValue :=
  JObj [(str "message", JStr (message r));
        (str "history", JArr (map entryJson (history r)));
        (str "historyLimit", JNum (num (historyLimit r)))].

(** The request as the handler of POST /chat receives it. *)
Definition posted (r : ChatRequest) : Server.Request :=
  {| Server.body := Some (requestJson r); Server.file := None |}.

(** ** The specification's vocabulary *)

(** The messages shown hold the history sent and at least one more. *)
Definition strictlyExtends (shown : list Message) (sent : list HistoryEntry) : Prop :=
  ∃ extra, extra ≠ [] ∧ map toEntry shown = sent ++ extra.

(** Whatever the proxy forwards upstream for the request is a window at
    the end of the history sent, each entry with its role and text. *)
Definition forwardsSuffix (r : ChatRequest) : Prop :=
  ∀ genAI StringToNumber ObjectToPrimitive fs call,
    call ∈ Server.upstreamCalls
             (snd (Server.chat genAI StringToNumber ObjectToPrimitive (posted r)
                     (Server.initial fs))) →
    ∃ window,
      window `suffix_of` history r
      ∧ call = Server.ChatSendMessage Server.model
                 (map (λ e, Server.forwarded (entryJson e)) window)
                 (Some (JStr (message r))).

(** While a turn awaits its reply: what is shown is what is stored, it
    strictly extends what was sent, and what the proxy forwards is cut
    from what was sent. *)
Definition turnInvariant (s : State) : Prop :=
  ∀ r, inflight s = Some r →
    strictlyExtends (messages s) (history r)
    ∧ stored s = Some (messages s)
    ∧ forwardsSuffix r.

(** The points of a session: the page is loaded, then actions follow,
    each allowed by [allowed] in the state it is taken in. *)
Inductive reachable (allowed : State → Action → Prop) : State → Prop :=
  | reach_load saved : reachable allowed (step Reload (browser saved))
  | reach_step s a :
      reachable allowed s → allowed s a → reachable allowed (step a s).

Definition anyAction (s : State) (a : Action) : Prop := True.

(** Clear Chat is not pressed while a reply is awaited. *)
Definition clearsOnlyWhenIdle (s : State) (a : Action) : Prop :=
  a = ClearChat → inflight s = None.

(** The request failed: the network did, or the response was not OK. *)
Definition failedFetch (outcome : FetchOutcome) : Prop :=
  outcome = NetworkFailure ∨ ∃ data, outcome = Responded false data.

(** A message the proxy accepts in a history: its sender is one of the
    two roles and its text is not white space only. *)
Definition acceptable (m : Message) : Prop :=
  (sender m = str "user" ∨ sender m = str "model") ∧ blank (text m) = false.

(** The text shown for an OK response: [data?.output || "No response
    from Gemini."]. *)
Definition replyText (data : Answer) : jsstring :=
  match output data with
  | Some reply => if bool_decide (reply = []) then str "No response from Gemini." else reply
  | None => str "No response from Gemini."
  end.

(** Running a handler down to the state it leaves. *)
Ltac exec :=
  cbv [step dispatch mount loadEffect saveEffect render handleSubmit
       handleSubmitResume clearChat setMessages setIsLoading setItem removeItem
       getItem fetch settled
       mbind M_bind mret M_ret throw modify gets try_catch try_finally];
  cbn [messages isLoading messagesChanged stored inflight fst snd].

End Client.

(* ===================================================================== *)
(** * Sample requests and collaborators                                   *)
(* ===================================================================== *)

Module Samples.
Import Js Eff.

(** An external API that answers every call with [text]. *)
Definition answering (text : string) : Server.UpstreamCall → Server.UpstreamResult :=
  λ _, Server.Resolves (Server.lit text).

(** An external API that throws [e] at every call. *)
Definition failing (e : JsError) : Server.UpstreamCall → Server.UpstreamResult :=
  λ _, Server.Rejects e.

(** [new Error()]: an error whose message is the empty string. *)
Definition emptyError : JsError := {| Js.message := Some (JStr []) |}.

(** Stand-ins for the runtime's conversions. *)
Definition noNumber : jsstring → Number := λ _, NaN.
Definition noPrimitive : JValue → option jsstring := λ _, None.
Definition noBase64 : list Byte.byte → jsstring := λ _, [].

Definition entry (role text : string) : JValue :=
  JObj [(str "role", JStr (str role)); (str "text", JStr (str text))].

Definition chatBody (message : string) (history : list JValue) (limit : Z) : JValue :=
  JObj [(str "message", JStr (str message));
        (str "history", JArr history);
        (str "historyLimit", JNum (num limit))].

Definition three : list JValue :=
  [entry "user" "a"; entry "model" "b"; entry "user" "c"].

(** [{ message: "Hi", history: [], historyLimit: 10 }] *)
Definition hi : JValue := chatBody "Hi" [] 10.

Definition post (b : JValue) : Server.Request :=
  {| Server.body := Some b; Server.file := None |}.

Definition upload : Server.UploadedFile :=
  {| Server.path := str "uploads/3f2a"; Server.mimetype := str "image/png" |}.

Definition disk : gmap jsstring (list Byte.byte) :=
  {[ str "uploads/3f2a" := [Byte.x89; Byte.x50; Byte.x4e; Byte.x47] ]}.

Definition multipart : Server.Request :=
  {| Server.body := Some (JObj []); Server.file := Some upload |}.

(** A conversation saved by an earlier visit. *)
Definition earlier : list Client.Message :=
  [Client.userMessageOf (str "Hello"); Client.modelMessageOf (str "Hi there")].

End Samples.

(* ===================================================================== *)
(** * Facts about the JavaScript built-ins                                *)
(* ===================================================================== *)

Module JsFacts.
Import Js.

Lemma trimStart_nil s : trimStart s = [] ↔ blank s = true.
Proof.
  induction s as [|c s IH]; simpl; [done|].
  destruct (is_trim_space c); simpl; [exact IH|].
  split; discriminate.
Qed.

Lemma trimStart_blank s : blank (trimStart s) = true → trimStart s = [].
Proof.
  induction s as [|c s IH]; simpl; [done|].
  destruct (is_trim_space c) eqn:Hc; [exact IH|].
  simpl. rewrite Hc. discriminate.
Qed.

Lemma blank_rev s : blank (rev s) = blank s.
Proof.
  unfold blank. apply eq_true_iff_eq.
  rewrite !forallb_forall. split; intros H c Hin; apply H.
  - by apply in_rev in Hin.
  - by apply in_rev.
Qed.

(** [s.trim() === ""] exactly when [s] holds white space only. *)
Lemma trim_nil s : trim s = [] ↔ blank s = true.
Proof.
  unfold trim, trimEnd. split.
  - intros H. apply trimStart_nil, trimStart_blank.
    rewrite <- blank_rev. apply trimStart_nil.
    apply (f_equal (@rev N)) in H. by rewrite rev_involutive in H.
  - intros H. apply trimStart_nil in H. by rewrite H.
Qed.

Lemma trim_nil_dec s : bool_decide (trim s = []) = blank s.
Proof.
  destruct (blank s) eqn:H.
  - apply bool_decide_eq_true, trim_nil, H.
  - apply bool_decide_eq_false. rewrite trim_nil, H. discriminate.
Qed.

Lemma ToIntegerOrInfinity_negate_num z :
  ToIntegerOrInfinity (negate (num z)) = Integer (- z).
Proof. simpl. by rewrite Z.quot_1_r. Qed.

(** [l.slice(-n)] for a positive integer [n]: the last [n] elements. *)
Lemma slice_negative {A} (l : list A) (n : Z) :
  0 < n → slice l (negate (num n)) = drop (length l - Z.to_nat n) l.
Proof.
  intros Hn. unfold slice, slice_start.
  rewrite ToIntegerOrInfinity_negate_num.
  destruct (Z.ltb_spec (- n) 0); [|lia].
  f_equal. lia.
Qed.

(** [l.slice(-0)] is [l.slice(0)]: the whole list. *)
Lemma slice_zero {A} (l : list A) : slice l (negate (num 0)) = l.
Proof. unfold slice, slice_start. simpl. by destruct l. Qed.

(** Whatever the argument, [slice] returns a suffix. *)
Lemma slice_suffix {A} (l : list A) (n : Number) : slice l n `suffix_of` l.
Proof. apply suffix_drop. Qed.

End JsFacts.

(* ===================================================================== *)
(** * The proxy service: proofs                                           *)
(* ===================================================================== *)

Module ServerProofs.
Import Js Eff Server JsFacts.

Lemma bind_inr {S A B} (c : M S A) (k : A → M S B) s a s' :
  c s = (inr a, s') → (c ≫= k) s = k a s'.
Proof. intros H. unfold mbind, M_bind. by rewrite H. Qed.

Lemma mapM_cons {S A B} (f : A → M S B) x l :
  mapM f (x :: l) = (y ← f x; k ← mapM f l; mret (y :: k)).
Proof. reflexivity. Qed.

Lemma strict_eq_str_true v lit :
  strict_eq_str v lit = true ↔ v = Some (JStr (str lit)).
Proof.
  destruct v as [[| | |s| |]|]; simpl; try (split; [discriminate|congruence]).
  rewrite bool_decide_eq_true. split; congruence.
Qed.

(** The callback of [history.every] accepts exactly the well-formed
    entries. *)
Lemma validEntry_spec e : validEntry e = true ↔ wellFormedEntry e.
Proof.
  unfold validEntry, wellFormedEntry. split.
  - rewrite !andb_true_iff, orb_true_iff, !strict_eq_str_true.
    intros ((((Hobj & Hnull) & Hrole) & _) & Htext).
    destruct e as [| | | |elems|props]; try discriminate.
    simpl in *.
    destruct (own_prop props (str "text")) as [[| | |t| |]|] eqn:Ht; try discriminate.
    apply negb_true_iff in Htext. rewrite trim_nil_dec in Htext.
    exists props. destruct Hrole as [Hr|Hr]; eexists _, t; eauto 10.
  - intros (props & r & t & -> & Hr & Hrole & Ht & Hb). simpl.
    rewrite Hr, Ht. simpl. rewrite trim_nil_dec, Hb.
    destruct Hrole as [-> | ->]; reflexivity.
Qed.

Lemma validEntry_not_null e : validEntry e = true → is_null e = false.
Proof. by destruct e. Qed.

Lemma wellFormed_isValidHistory entries :
  Forall wellFormedEntry entries ↔ isValidHistory (JArr entries) = true.
Proof.
  simpl. rewrite forallb_forall, Forall_forall.
  split; intros H e He; apply validEntry_spec, H; by apply list_elem_of_In.
Qed.

Section Chat.

Variable genAI : UpstreamCall → UpstreamResult.
Variable StringToNumber : jsstring → Number.
Variable ObjectToPrimitive : JValue → option jsstring.

Lemma formatEntry_run e (w : World) :
  is_null e = false → formatEntry e w = (inr (forwarded e), w).
Proof. unfold formatEntry. monad. by destruct e. Qed.

Lemma formatHistory_run entries (w : World) :
  Forall (λ e, is_null e = false) entries →
  formatHistory (JArr entries) w = (inr (map forwarded entries), w).
Proof.
  unfold formatHistory. induction 1 as [|e entries He _ IH]; [done|].
  rewrite mapM_cons.
  rewrite (bind_inr _ _ _ _ _ (formatEntry_run e w He)).
  by rewrite (bind_inr _ _ _ _ _ IH).
Qed.

Lemma invalidMessage_blank s : invalidMessage (Some (JStr s)) = blank s.
Proof. unfold invalidMessage. by rewrite trim_nil_dec. Qed.

(** A valid request runs to the upstream call and relays its answer. *)
Lemma chat_valid_run b f msg entries limit fs :
  ValidChat b msg entries limit →
  let c := ChatSendMessage model (map forwarded (slice entries (negate limit)))
             (Some (JStr msg)) in
  chat genAI StringToNumber ObjectToPrimitive {| body := Some b; file := f |} (initial fs)
  = (inr tt, {| files := fs; trace := Upstream c :: relay genAI c |}).
Proof.
  intros [Hm Hb Hh He Hl] c. unfold chat. cbn [body].
  assert (Hvalid : isValidHistory (JArr entries) = true)
    by by apply wellFormed_isValidHistory.
  assert (Hnn : Forall (λ e, is_null e = false) (slice entries (negate limit))).
  { apply Forall_drop. eapply Forall_impl; [exact He|].
    intros e Hw. by apply validEntry_not_null, validEntry_spec. }
  destruct b; try discriminate Hm.
  all: monad; rewrite Hm, Hh, Hl, invalidMessage_blank, Hb, Hvalid; cbn [negb];
    cbv [sliceHistory ToNumber]; monad;
    rewrite (formatHistory_run _ _ Hnn); fold c; unfold relay;
    cbn [files trace initial app]; by destruct (genAI c).
Qed.

Lemma chat_valid_calls b f msg entries limit fs :
  ValidChat b msg entries limit →
  upstreamCalls
    (snd (chat genAI StringToNumber ObjectToPrimitive {| body := Some b; file := f |}
            (initial fs)))
  = [ChatSendMessage model (map forwarded (slice entries (negate limit)))
       (Some (JStr msg))].
Proof.
  intros Hv. rewrite (chat_valid_run _ f _ _ _ fs Hv).
  unfold upstreamCalls, relay. cbn [snd trace]. by destruct (genAI _).
Qed.

Lemma lit_nonempty (s : string) : s ≠ EmptyString → str s ≠ [].
Proof. by destruct s. Qed.

Lemma chat_invalid_message_rejected b f fs :
  is_null b = false →
  invalidMessage (get_prop b "message") = true →
  rejected 400 (chat genAI StringToNumber ObjectToPrimitive
                  {| body := Some b; file := f |} (initial fs)).
Proof.
  intros Hb Hm. unfold chat. cbn [body].
  destruct b; try discriminate Hb; monad; rewrite Hm;
    (split; [done|split; [|done]]);
    eexists; (split; [|reflexivity]); by apply lit_nonempty.
Qed.

Lemma chat_invalid_history_rejected b f entries fs :
  get_prop b "history" = Some (JArr entries) →
  isValidHistory (JArr entries) = false →
  rejected 400 (chat genAI StringToNumber ObjectToPrimitive
                  {| body := Some b; file := f |} (initial fs)).
Proof.
  intros Hh Hinv. unfold chat. cbn [body].
  assert (Hlen : number_gt0 (num (Z.of_nat (length entries))) = true).
  { destruct entries; [discriminate Hinv|]. simpl; apply Z.ltb_lt; lia. }
  destruct b; try (vm_compute in Hh; discriminate Hh); monad; rewrite Hh;
    cbv [default from_option id];
    rewrite Hinv; cbn [negb];
    destruct (invalidMessage _);
    cbv [ToNumber get_prop]; monad;
    try (rewrite bool_decide_eq_true_2 by reflexivity);
    try rewrite Hlen;
    (split; [done|split; [|done]]);
    eexists; (split; [|reflexivity]); by apply lit_nonempty.
Qed.

End Chat.

(** C1. For a valid body of POST /chat with a positive integer limit [N]
    (10 when [historyLimit] is left out, by [ValidChat]), the handler makes
    one upstream call, whose history is a window of the request's entries,
    each forwarded with its role and text as they are: the window is the
    whole history when it has at most [N] entries, and otherwise its last
    [N] entries in their order. *)
Theorem chat_forwards_history_window genAI StringToNumber ObjectToPrimitive
    b f msg entries (N : Z) fs :
  ValidChat b msg entries (num N) →
  0 < N →
  ∃ window,
    upstreamCalls
      (snd (chat genAI StringToNumber ObjectToPrimitive {| body := Some b; file := f |}
              (initial fs)))
    = [ChatSendMessage model (map forwarded window) (Some (JStr msg))]
    ∧ (Z.of_nat (length entries) ≤ N → window = entries)
    ∧ (N < Z.of_nat (length entries) →
       Z.of_nat (length window) = N ∧ ∃ older, entries = older ++ window).
Proof.
  intros Hv HN. exists (drop (length entries - Z.to_nat N) entries).
  split; [|split].
  - rewrite (chat_valid_calls _ _ _ _ _ _ _ _ _ Hv). by rewrite slice_negative.
  - intros Hle. replace (length entries - Z.to_nat N)%nat with 0%nat by lia. done.
  - intros Hlt. split.
    + rewrite length_drop. lia.
    + exists (take (length entries - Z.to_nat N) entries). by rewrite take_drop.
Qed.

Lemma three_valid N : ValidChat (Samples.chatBody "Hi" Samples.three N) (str "Hi") Samples.three (num N).
Proof.
  split; try reflexivity.
  repeat constructor; apply validEntry_spec; reflexivity.
Qed.

Lemma chat_forwards_history_window_witness :
  ∃ window,
    upstreamCalls
      (snd (chat (Samples.answering "ok") Samples.noNumber Samples.noPrimitive
              (Samples.post (Samples.chatBody "Hi" Samples.three 2)) (initial ∅)))
    = [ChatSendMessage model (map forwarded window) (Some (JStr (str "Hi")))]
    ∧ (Z.of_nat (length Samples.three) ≤ 2 → window = Samples.three)
    ∧ (2 < Z.of_nat (length Samples.three) →
       Z.of_nat (length window) = 2 ∧ ∃ older, Samples.three = older ++ window).
Proof.
  apply (chat_forwards_history_window (Samples.answering "ok") Samples.noNumber
           Samples.noPrimitive (Samples.chatBody "Hi" Samples.three 2) None
           (str "Hi") Samples.three 2 ∅).
  - apply three_valid.
  - reflexivity.
Defined.

(** C10. With [historyLimit] equal to 0 the window is not empty:
    [slice(-0)] is [slice(0)], and the whole history of a valid request is
    forwarded. *)
Theorem chat_limit_zero_forwards_all genAI StringToNumber ObjectToPrimitive
    b f msg entries fs :
  ValidChat b msg entries (num 0) →
  entries ≠ [] →
  upstreamCalls
    (snd (chat genAI StringToNumber ObjectToPrimitive {| body := Some b; file := f |}
            (initial fs)))
  = [ChatSendMessage model (map forwarded entries) (Some (JStr msg))].
Proof.
  intros Hv _. rewrite (chat_valid_calls _ _ _ _ _ _ _ _ _ Hv). by rewrite slice_zero.
Qed.

Lemma chat_limit_zero_forwards_all_witness :
  upstreamCalls
    (snd (chat (Samples.answering "ok") Samples.noNumber Samples.noPrimitive
            (Samples.post (Samples.chatBody "Hi" Samples.three 0)) (initial ∅)))
  = [ChatSendMessage model (map forwarded Samples.three) (Some (JStr (str "Hi")))].
Proof.
  apply (chat_limit_zero_forwards_all (Samples.answering "ok") Samples.noNumber
           Samples.noPrimitive (Samples.chatBody "Hi" Samples.three 0) None
           (str "Hi") Samples.three ∅).
  - apply three_valid.
  - discriminate.
Defined.

(** C6, as the code has it. For a valid body of POST /chat the handler
    makes one upstream call and answers once: with status 200 and
    [{ output }] holding the upstream text when the call succeeds, and with
    status 500 and [{ error }] when it throws, where the error is the
    upstream message if that is truthy and the fixed text
    "Internal Server Error" otherwise. *)
Theorem chat_relays_answer genAI StringToNumber ObjectToPrimitive
    b f msg entries limit fs :
  ValidChat b msg entries limit →
  let w := snd (chat genAI StringToNumber ObjectToPrimitive
                  {| body := Some b; file := f |} (initial fs)) in
  ∃ c,
    upstreamCalls w = [c]
    ∧ responses w =
        [match genAI c with
         | Resolves text => {| status := 200; json := Output text |}
         | Rejects e =>
             {| status := 500;
                json := Error (if truthy (Js.message e) then Js.message e
                               else lit "Internal Server Error") |}
         end].
Proof.
  intros Hv w. eexists. split.
  - apply (chat_valid_calls _ _ _ _ _ _ _ _ _ Hv).
  - subst w. rewrite (chat_valid_run _ _ _ _ f _ _ _ fs Hv).
    unfold responses, relay. cbn [snd trace]. by destruct (genAI _).
Qed.

Lemma hi_valid : ValidChat Samples.hi (str "Hi") [] (num 10).
Proof. split; try reflexivity. constructor. Qed.

Lemma chat_relays_answer_witness :
  let w := snd (chat (Samples.answering "Hello!") Samples.noNumber Samples.noPrimitive
                  (Samples.post Samples.hi) (initial ∅)) in
  ∃ c,
    upstreamCalls w = [c]
    ∧ responses w =
        [match Samples.answering "Hello!" c with
         | Resolves text => {| status := 200; json := Output text |}
         | Rejects e =>
             {| status := 500;
                json := Error (if truthy (Js.message e) then Js.message e
                               else lit "Internal Server Error") |}
         end].
Proof.
  apply (chat_relays_answer (Samples.answering "Hello!") Samples.noNumber
           Samples.noPrimitive Samples.hi None (str "Hi") [] (num 10) ∅).
  apply hi_valid.
Defined.

(** C6, as stated, fails when the upstream error has an empty message:
    the body then carries "Internal Server Error", not the message. *)
Lemma chat_error_message_not_verbatim :
  let w := snd (chat (Samples.failing Samples.emptyError) Samples.noNumber
                  Samples.noPrimitive (Samples.post Samples.hi) (initial ∅)) in
  responses w = [{| status := 500; json := Error (lit "Internal Server Error") |}]
  ∧ responses w ≠ [{| status := 500; json := Error (Js.message Samples.emptyError) |}].
Proof. split; [reflexivity | discriminate]. Qed.

(** X23. POST /generate-text answers 400 with an error message, and calls
    nothing upstream, when the request has no body or its prompt is absent
    or the empty string; POST /chat does so for every parsed body whose
    message is absent, the empty string, or white space only. *)
Theorem missing_text_rejected genAI StringToNumber ObjectToPrimitive :
  (∀ req fs,
     match body req with
     | Some b => missingText false (get_prop b "prompt")
     | None => True
     end →
     rejected 400 (generateText genAI req (initial fs)))
  ∧ (∀ b f fs,
       is_null b = false →
       missingText true (get_prop b "message") →
       rejected 400 (chat genAI StringToNumber ObjectToPrimitive
                       {| body := Some b; file := f |} (initial fs))).
Proof.
  split.
  - intros [[b|] f] fs H; cbn [body] in H; unfold generateText; cbn [body].
    + destruct (truthy (Some b)) eqn:Hb; cbn [negb].
      * assert (Hp : truthy (get_prop b "prompt") = false).
        { destruct H as [-> | (s & -> & [-> | [? _]])]; [done|done|discriminate]. }
        destruct b; try discriminate Hb; monad; rewrite Hp;
          (split; [done|split; [|done]]);
          eexists; (split; [|reflexivity]); by apply lit_nonempty.
      * split; [done|split; [|done]].
        eexists; (split; [|reflexivity]); by apply lit_nonempty.
    + split; [done|split; [|done]].
      eexists; (split; [|reflexivity]); by apply lit_nonempty.
  - intros b f fs Hb H. apply chat_invalid_message_rejected; [done|].
    destruct H as [-> | (s & -> & [-> | [_ Hs]])]; [done|done|].
    by rewrite invalidMessage_blank.
Qed.

Lemma missing_text_rejected_witness :
  rejected 400 (generateText (Samples.answering "ok")
                  (Samples.post (JObj [(str "prompt", JStr [])])) (initial ∅))
  ∧ rejected 400 (chat (Samples.answering "ok") Samples.noNumber Samples.noPrimitive
                    (Samples.post (Samples.chatBody "   " [] 10)) (initial ∅)).
Proof.
  split.
  - apply (proj1 (missing_text_rejected (Samples.answering "ok") Samples.noNumber
                    Samples.noPrimitive)
             (Samples.post (JObj [(str "prompt", JStr [])])) ∅).
    right. exists []. split; [reflexivity | by left].
  - apply (proj2 (missing_text_rejected (Samples.answering "ok") Samples.noNumber
                    Samples.noPrimitive)
             (Samples.chatBody "   " [] 10) None ∅).
    + reflexivity.
    + right. exists (str "   "). split; [reflexivity | right; split; reflexivity].
Defined.

(** C2, on the code. A request without a parsed body has no message and
    no prompt.  POST /generate-text checks [!req.body] and answers it 400
    without calling upstream; POST /chat has no such check: destructuring
    [req.body] throws before the validation of the message, nothing is
    sent, and the request is not rejected with status 400. *)
Theorem chat_without_body_is_not_rejected genAI StringToNumber ObjectToPrimitive f fs :
  let req := {| body := None; file := f |} in
  let r := chat genAI StringToNumber ObjectToPrimitive req (initial fs) in
  r = (inl (TypeError
              "Cannot destructure property 'message' of 'req.body' as it is undefined."),
       initial fs)
  ∧ responses (snd r) = []
  ∧ ¬ rejected 400 r
  ∧ rejected 400 (generateText genAI req (initial fs)).
Proof.
  intros req r. split; [reflexivity|]. split; [reflexivity|]. split.
  - intros [Hok _]. discriminate Hok.
  - split; [done|split; [|done]].
    eexists; (split; [|reflexivity]); by apply lit_nonempty.
Qed.

(** C3. A body of POST /chat whose history is a list with an entry that
    is not well formed (the list is then not empty) is answered 400 with
    an error message, and nothing is called upstream. *)
Theorem malformed_history_rejected genAI StringToNumber ObjectToPrimitive
    b f entries fs :
  get_prop b "history" = Some (JArr entries) →
  Exists (λ e, ¬ wellFormedEntry e) entries →
  rejected 400 (chat genAI StringToNumber ObjectToPrimitive
                  {| body := Some b; file := f |} (initial fs)).
Proof.
  intros Hh Hex. apply (chat_invalid_history_rejected _ _ _ _ _ entries); [done|].
  apply not_true_is_false. intros Hv. apply wellFormed_isValidHistory in Hv.
  apply Exists_exists in Hex as (e & He & Hne).
  by eapply Hne, Forall_forall.
Qed.

Lemma malformed_history_rejected_witness :
  rejected 400 (chat (Samples.answering "ok") Samples.noNumber Samples.noPrimitive
                  (Samples.post (Samples.chatBody "Hi"
                                   [Samples.entry "user" "a"; Samples.entry "system" "b"] 10))
                  (initial ∅)).
Proof.
  apply (malformed_history_rejected (Samples.answering "ok") Samples.noNumber
           Samples.noPrimitive
           (Samples.chatBody "Hi" [Samples.entry "user" "a"; Samples.entry "system" "b"] 10)
           None [Samples.entry "user" "a"; Samples.entry "system" "b"] ∅).
  - reflexivity.
  - apply Exists_cons_tl, Exists_cons_hd.
    intros Hw. apply validEntry_spec in Hw. discriminate Hw.
Defined.

Section Attachments.

Variable genAI : UpstreamCall → UpstreamResult.
Variable toBase64 : list Byte.byte → jsstring.

Lemma generateFromFile_without_file defaultPrompt fallbackMime missing b fs :
  ∃ e, generateFromFile genAI toBase64 defaultPrompt fallbackMime missing
         {| body := b; file := None |} (initial fs)
       = (inl e, initial fs).
Proof.
  unfold generateFromFile. cbn [body file]. monad.
  destruct b as [[]|]; by eexists.
Qed.

Lemma generateFromFile_run defaultPrompt fallbackMime missing b f contents fs :
  is_null b = false →
  fs !! path f = Some contents →
  ∃ c r,
    generateFromFile genAI toBase64 defaultPrompt fallbackMime missing
      {| body := Some b; file := Some f |} (initial fs)
    = (inr tt, {| files := delete (path f) fs;
                  trace := [ReadFile (path f); Unlink (path f); Upstream c; Send r] |})
    ∧ status r = match genAI c with Resolves _ => 200 | Rejects _ => 500 end.
Proof.
  intros Hb Hfile. unfold generateFromFile. cbn [body file].
  rewrite bool_decide_eq_true_2 by by eexists. cbn [negb].
  cbv [deleteUploadedFile readFileSync unlinkSync]. monad.
  destruct b; try discriminate Hb;
    cbn [initial files trace]; rewrite Hfile; cbn [files trace]; rewrite Hfile;
    cbn [files trace app];
    (destruct (genAI _) eqn:Hg; do 2 eexists; (split; [reflexivity|]);
     cbn [status]; by rewrite Hg).
Qed.

End Attachments.

(** C4, on the code. A request to an attachment endpoint without a file
    is not answered by the handler: reading [req.file.path] throws before
    the [!req.file] check is reached, and nothing has been sent, so that
    the request is not rejected with status 400. *)
Theorem attachment_without_file_throws genAI toBase64 b fs handler :
  handler ∈ [generateFromImage genAI toBase64;
             generateFromDocument genAI toBase64;
             generateFromAudio genAI toBase64] →
  let run := handler {| body := b; file := None |} (initial fs) in
  (∃ e, run = (inl e, initial fs))
  ∧ responses (snd run) = []
  ∧ ¬ rejected 400 run.
Proof.
  intros Hin run.
  assert (Hthrows : ∃ e, run = (inl e, initial fs)).
  { subst run. repeat (apply elem_of_cons in Hin as [-> | Hin]);
      [by apply generateFromFile_without_file ..|].
    by apply elem_of_nil in Hin. }
  destruct Hthrows as [e He]. rewrite He.
  split; [by eexists|split; [done|]].
  intros [Hok _]. discriminate Hok.
Qed.

Lemma attachment_without_file_throws_witness :
  let run := generateFromImage (Samples.answering "ok") Samples.noBase64
               (Samples.post (JObj [(str "prompt", JStr (str "What is this?"))]))
               (initial ∅) in
  (∃ e, run = (inl e, initial ∅))
  ∧ responses (snd run) = []
  ∧ ¬ rejected 400 run.
Proof.
  apply (attachment_without_file_throws (Samples.answering "ok") Samples.noBase64
           (Some (JObj [(str "prompt", JStr (str "What is this?"))])) ∅).
  apply list_elem_of_here.
Defined.

(** C5. For a request to an attachment endpoint that carries a file
    (multer has parsed a body and stored the upload at [req.file.path]),
    the handler reads the file, deletes it at once, and only then calls
    upstream and answers: the file is gone from the disk whether the call
    succeeded (status 200) or threw (status 500). *)
Theorem upload_deleted_before_response genAI toBase64 b f contents fs :
  is_null b = false →
  fs !! path f = Some contents →
  ∀ handler,
    handler ∈ [generateFromImage genAI toBase64;
               generateFromDocument genAI toBase64;
               generateFromAudio genAI toBase64] →
    ∃ c r,
      handler {| body := Some b; file := Some f |} (initial fs)
      = (inr tt, {| files := delete (path f) fs;
                    trace := [ReadFile (path f); Unlink (path f); Upstream c; Send r] |})
      ∧ status r = match genAI c with Resolves _ => 200 | Rejects _ => 500 end.
Proof.
  intros Hb Hfile handler Hin.
  repeat (apply elem_of_cons in Hin as [-> | Hin]);
    [by eapply generateFromFile_run ..|].
  by apply elem_of_nil in Hin.
Qed.

Lemma upload_deleted_before_response_witness :
  ∃ c r,
    generateFromImage (Samples.failing (ErrorWith "quota exceeded")) Samples.noBase64
      Samples.multipart (initial Samples.disk)
    = (inr tt, {| files := delete (path Samples.upload) Samples.disk;
                  trace := [ReadFile (path Samples.upload); Unlink (path Samples.upload);
                            Upstream c; Send r] |})
    ∧ status r = match Samples.failing (ErrorWith "quota exceeded") c with
                 | Resolves _ => 200
                 | Rejects _ => 500
                 end.
Proof.
  apply (upload_deleted_before_response (Samples.failing (ErrorWith "quota exceeded"))
           Samples.noBase64 (JObj []) Samples.upload
           [Byte.x89; Byte.x50; Byte.x4e; Byte.x47] Samples.disk).
  - reflexivity.
  - reflexivity.
  - apply list_elem_of_here.
Defined.

End ServerProofs.

(* ===================================================================== *)
(** * The chat client: proofs                                             *)
(* ===================================================================== *)

Module ClientProofs.
Import Js Eff Client JsFacts.

Lemma slice_map {A B} (f : A → B) (l : list A) (n : Number) :
  slice (map f l) n = map f (slice l n).
Proof.
  unfold slice, slice_start. rewrite length_map.
  symmetry. apply fmap_drop.
Qed.

(** The proxy cuts what it forwards from the end of what it was sent. *)
Lemma proxy_forwards_suffix r : forwardsSuffix r.
Proof.
  intros genAI S2N O2P fs call Hin. unfold posted in Hin.
  destruct (Server.invalidMessage (Some (JStr (message r)))) eqn:Hm.
  { destruct (ServerProofs.chat_invalid_message_rejected genAI S2N O2P
                (requestJson r) None fs eq_refl Hm) as (_ & _ & Hnone).
    rewrite Hnone in Hin. by apply elem_of_nil in Hin. }
  destruct (Server.isValidHistory (JArr (map entryJson (history r)))) eqn:Hv.
  - assert (Hvalid : Server.ValidChat (requestJson r) (message r)
                       (map entryJson (history r)) (num (historyLimit r))).
    { split; try reflexivity.
      - by rewrite <- ServerProofs.invalidMessage_blank.
      - by apply ServerProofs.wellFormed_isValidHistory. }
    rewrite (ServerProofs.chat_valid_calls _ _ _ _ _ _ _ _ _ Hvalid) in Hin.
    apply list_elem_of_singleton in Hin as ->.
    exists (slice (history r) (negate (num (historyLimit r)))).
    split; [apply slice_suffix|].
    by rewrite slice_map, map_map.
  - destruct (ServerProofs.chat_invalid_history_rejected genAI S2N O2P
                (requestJson r) None _ fs eq_refl Hv) as (_ & _ & Hnone).
    rewrite Hnone in Hin. by apply elem_of_nil in Hin.
Qed.

Lemma reload_inflight s : inflight (step Reload s) = None.
Proof. exec. by destruct (stored s). Qed.

Lemma settle_inflight outcome s : inflight (step (Settle outcome) s) = None.
Proof.
  exec. destruct (inflight s) eqn:Hin; [|done].
  by destruct outcome as [|[] [[[reply|]]|]].
Qed.

Lemma clear_inflight s : inflight (step ClearChat s) = inflight s.
Proof. by exec. Qed.

(** Pressing Send: nothing while a reply is awaited or on a blank input;
    otherwise the message is appended, stored, and the request leaves
    with the messages that were there before it. *)
Lemma submit_step value s :
  isLoading s = false →
  trim value ≠ [] →
  step (Submit value) s =
    let shown := messages s ++ [userMessageOf (trim value)] in
    {| messages := shown; isLoading := true; messagesChanged := false;
       stored := Some shown;
       inflight := Some {| message := trim value;
                           history := map toEntry (messages s);
                           historyLimit := 10 |} |}.
Proof.
  intros Hl Ht. exec. rewrite Hl.
  rewrite bool_decide_eq_false_2 by done. by exec.
Qed.

Lemma submit_idle value s :
  isLoading s = true ∨ trim value = [] →
  messages (step (Submit value) s) = messages s
  ∧ inflight (step (Submit value) s) = inflight s
  ∧ (stored (step (Submit value) s) = stored s
     ∨ stored (step (Submit value) s) = Some (messages s)).
Proof.
  intros H. exec. destruct (isLoading s); [by auto|].
  destruct H as [?| ->]; [done|]. rewrite bool_decide_eq_true_2 by done.
  exec. destruct (messagesChanged s); by auto.
Qed.

(** C7, as the code has it. At every point of a session in which Clear
    Chat is not pressed while a reply is awaited, and for the request of
    the turn in flight: the messages shown are the ones stored, they hold
    the history sent to the proxy and at least the message just submitted
    after it, and whatever the proxy forwards upstream is cut from the end
    of the history sent. *)
Theorem turn_history_invariant s :
  reachable clearsOnlyWhenIdle s → turnInvariant s.
Proof.
  induction 1 as [saved|s a _ IH Hallowed]; intros r Hr.
  - rewrite reload_inflight in Hr. discriminate.
  - destruct a as [value|outcome| |].
    + destruct (isLoading s) eqn:Hl; [|destruct (decide (trim value = [])) as [Ht|Ht]].
      * destruct (submit_idle value s (or_introl Hl)) as (Hm & Hi & Hs).
        rewrite Hi in Hr. destruct (IH r Hr) as (He & Hst & Hf).
        rewrite Hm. split; [done|split; [|done]]. by destruct Hs as [-> | ->].
      * destruct (submit_idle value s (or_intror Ht)) as (Hm & Hi & Hs).
        rewrite Hi in Hr. destruct (IH r Hr) as (He & Hst & Hf).
        rewrite Hm. split; [done|split; [|done]]. by destruct Hs as [-> | ->].
      * rewrite (submit_step value s Hl Ht) in Hr |- *.
        cbn [messages stored inflight] in *. injection Hr as <-.
        split; [|split; [done|apply proxy_forwards_suffix]].
        exists [toEntry (userMessageOf (trim value))].
        split; [done|]. by rewrite map_app.
    + rewrite settle_inflight in Hr. discriminate.
    + rewrite clear_inflight, (Hallowed eq_refl) in Hr. discriminate.
    + rewrite reload_inflight in Hr. discriminate.
Qed.

Lemma turn_history_invariant_witness :
  turnInvariant (step (Submit (str "Hi")) (step Reload (browser (Some Samples.earlier)))).
Proof.
  apply (turn_history_invariant
           (step (Submit (str "Hi")) (step Reload (browser (Some Samples.earlier))))).
  apply reach_step; [apply reach_load|].
  intros H. discriminate H.
Defined.

(** C7, as stated, fails when Clear Chat is pressed while the reply is
    awaited: nothing is shown any more, and the history sent for the turn
    still holds the earlier messages. *)
Lemma clear_while_awaiting_breaks_invariant :
  let s := run [Submit (str "Hi"); ClearChat]
             (step Reload (browser (Some Samples.earlier))) in
  reachable anyAction s
  ∧ messages s = []
  ∧ (∃ r, inflight s = Some r ∧ history r = map toEntry Samples.earlier)
  ∧ ¬ turnInvariant s.
Proof.
  split; [|split; [|split]].
  - do 2 (apply reach_step; [|exact I]). apply reach_load.
  - reflexivity.
  - by eexists.
  - intros H. edestruct H as [(extra & _ & Heq) _]; [reflexivity|].
    discriminate Heq.
Qed.

(** C8. The Clear Chat button leaves no message in memory and the empty
    list in local storage (the item is removed, and the saving effect of
    the next render writes the empty list); loading the page then shows
    an empty conversation. *)
Theorem clear_chat_empties_history s :
  let s' := step ClearChat s in
  fst (dispatch ClearChat s) = inr tt
  ∧ messages s' = []
  ∧ stored s' = Some []
  ∧ messages (step Reload s') = [].
Proof. by exec. Qed.

(** C9. When the request of a submission fails (the network fails or the
    response is not OK), the continuation of [handleSubmit] appends exactly
    one message to the messages shown and stored, with sender "model" and
    the text "Failed to fetch response. Please try again."; it throws
    nothing and leaves the input enabled. *)
Theorem failed_fetch_appends_placeholder s r outcome :
  inflight s = Some r →
  failedFetch outcome →
  ∃ s',
    dispatch (Settle outcome) s = (inr tt, s')
    ∧ messages s' =
        messages s ++ [{| sender := str "model";
                          text := str "Failed to fetch response. Please try again." |}]
    ∧ stored s' = Some (messages s')
    ∧ isLoading s' = false
    ∧ inflight s' = None.
Proof.
  intros Hr [-> | [data ->]]; exec; rewrite Hr; by eexists.
Qed.

Lemma failed_fetch_appends_placeholder_witness :
  ∃ s',
    dispatch (Settle NetworkFailure)
      (step (Submit (str "Hi")) (step Reload (browser None)))
    = (inr tt, s')
    ∧ messages s' =
        [{| sender := str "user"; text := str "Hi" |}]
        ++ [{| sender := str "model";
               text := str "Failed to fetch response. Please try again." |}]
    ∧ stored s' = Some (messages s')
    ∧ isLoading s' = false
    ∧ inflight s' = None.
Proof.
  apply (failed_fetch_appends_placeholder
           (step (Submit (str "Hi")) (step Reload (browser None)))
           {| message := str "Hi"; history := []; historyLimit := 10 |}
           NetworkFailure).
  - reflexivity.
  - by left.
Defined.

End ClientProofs.

(* ===================================================================== *)
(** * The proxy service: further properties of the handlers               *)
(* ===================================================================== *)

Module ServerExtras.
Import Js Eff Server JsFacts ServerProofs.

Lemma try_catch_inr {S A} (c : M S A) (h : JsError → M S A) s a s' :
  c s = (inr a, s') → try_catch c h s = (inr a, s').
Proof. intros H. unfold try_catch. by rewrite H. Qed.

Lemma try_catch_inl {S A} (c : M S A) (h : JsError → M S A) s e s' :
  c s = (inl e, s') → try_catch c h s = h e s'.
Proof. intros H. unfold try_catch. by rewrite H. Qed.

Lemma bind_throws {S A B} (c : M S A) (k : A → M S B) s e s' :
  c s = (inl e, s') → (c ≫= k) s = (inl e, s').
Proof. intros H. unfold mbind, M_bind. by rewrite H. Qed.

Section Runs.

Variable genAI : UpstreamCall → UpstreamResult.
Variable StringToNumber : jsstring → Number.
Variable ObjectToPrimitive : JValue → option jsstring.
Variable toBase64 : list Byte.byte → jsstring.

(** The conversions and the shaping of the history touch neither the
    disk nor the trace. *)
Lemma ToNumber_world v (w : World) :
  snd (ToNumber StringToNumber ObjectToPrimitive v w) = w.
Proof.
  destruct v as [[]|]; simpl; try done; by destruct (ObjectToPrimitive _).
Qed.

Lemma ToNumber_run v (w : World) :
  (∃ n, ToNumber StringToNumber ObjectToPrimitive v w = (inr n, w))
  ∨ (∃ e, ToNumber StringToNumber ObjectToPrimitive v w = (inl e, w)).
Proof.
  pose proof (ToNumber_world v w) as Hw.
  destruct (ToNumber _ _ v w) as [[e|n] w']; simpl in Hw; subst; eauto.
Qed.

Lemma formatHistory_world h (w : World) : snd (formatHistory h w) = w.
Proof.
  destruct h; try done. simpl. revert w.
  induction elems as [|e l IH]; intros w; [done|].
  rewrite mapM_cons. destruct (is_null e) eqn:He.
  - destruct e; try discriminate He. unfold formatEntry. by monad.
  - rewrite (bind_inr _ _ _ _ _ (formatEntry_run e w He)).
    specialize (IH w). unfold mbind, M_bind, mret, M_ret.
    destruct (mapM formatEntry l w) as [[]]; simpl in *; by subst.
Qed.

(** With a valid message and a valid history list, [chat] either fails
    to convert the limit, or makes the call and relays its answer. *)
Lemma chat_valid_history_cases b f msg entries fs :
  get_prop b "message" = Some (JStr msg) →
  blank msg = false →
  default (JArr []) (get_prop b "history") = JArr entries →
  isValidHistory (JArr entries) = true →
  let r := chat genAI StringToNumber ObjectToPrimitive {| body := Some b; file := f |}
             (initial fs) in
  (∃ e, ToNumber StringToNumber ObjectToPrimitive
          (Some (default (JNum (num 10)) (get_prop b "historyLimit"))) (initial fs)
        = (inl e, initial fs)
        ∧ r = (inr tt, {| files := fs;
                          trace := [ConsoleError e;
                                    Send {| status := 500;
                                            json := Error (or_else (Js.message e)
                                                             (lit "Internal Server Error")) |}] |}))
  ∨ (∃ n, ToNumber StringToNumber ObjectToPrimitive
            (Some (default (JNum (num 10)) (get_prop b "historyLimit"))) (initial fs)
          = (inr n, initial fs)
          ∧ let c := ChatSendMessage model (map forwarded (slice entries (negate n)))
                       (Some (JStr msg)) in
            r = (inr tt, {| files := fs; trace := Upstream c :: relay genAI c |})).
Proof.
  intros Hm Hb Hh Hv r. subst r. unfold chat. cbn [body].
  assert (Hnn : ∀ n, Forall (λ e, is_null e = false) (slice entries n)).
  { intros n. apply Forall_drop, Forall_forall. intros x Hx.
    apply validEntry_not_null.
    by apply (proj1 (forallb_forall _ _) Hv), list_elem_of_In. }
  destruct b; try (vm_compute in Hm; discriminate Hm).
  monad. rewrite Hm, Hh, invalidMessage_blank, Hb, Hv. cbn [negb].
  cbv [sliceHistory]. monad.
  set (limit := default (JNum (num 10)) _).
  destruct (ToNumber_run (Some limit) (initial fs)) as [[n Hn]|[e He]].
  - rewrite Hn. right. exists n. split; [done|].
    rewrite (formatHistory_run _ _ (Hnn _)).
    unfold relay. cbn [initial files trace app]. by destruct (genAI _).
  - rewrite He. left. by exists e.
Qed.

(** With a valid message and a history that is not a list, [chat] throws
    (reading the length), answers 400 (positive length), or fails inside
    its [try] before any call and answers 500. *)
Lemma chat_other_history_cases b f msg h fs :
  get_prop b "message" = Some (JStr msg) →
  blank msg = false →
  get_prop b "history" = Some h →
  (∀ entries, h ≠ JArr entries) →
  let r := chat genAI StringToNumber ObjectToPrimitive {| body := Some b; file := f |}
             (initial fs) in
  (∃ e, r = (inl e, initial fs))
  ∨ rejected 400 r
  ∨ (∃ e, r = (inr tt, {| files := fs;
                          trace := [ConsoleError e;
                                    Send {| status := 500;
                                            json := Error (or_else (Js.message e)
                                                             (lit "Internal Server Error")) |}] |})).
Proof.
  intros Hm Hb Hh Harr r. subst r. unfold chat. cbn [body].
  destruct b; try (vm_compute in Hm; discriminate Hm).
  monad. rewrite Hm, Hh, invalidMessage_blank, Hb. cbv [default from_option id].
  assert (Hinv : isValidHistory h = false)
    by (destruct h; try done; by edestruct Harr).
  rewrite Hinv. cbn [negb].
  set (limit := match get_prop _ "historyLimit" with Some x => x | None => _ end).
  destruct (is_null h) eqn:Hnull.
  { destruct h; try discriminate Hnull. left. by eexists. }
  assert (Hlen : ∀ w : World,
            (let (s1, s') := match h with
                             | JNull => λ s1 : World, (inl (TypeError
                                 "Cannot read properties of null (reading 'length')"), s1)
                             | _ => λ s1 : World, (inr h, s1)
                             end w in
             match s1 with
             | inl e => (inl e, s')
             | inr a => (inr (get_prop a "length"), s')
             end) = (inr (get_prop h "length"), w))
    by (intros w; by destruct h).
  rewrite Hlen. clear Hlen.
  destruct (ToNumber_run (get_prop h "length") (initial fs)) as [[n Hn]|[e He]];
    [rewrite Hn|rewrite He; left; by eexists].
  destruct (number_gt0 n).
  { right; left. split; [done|split; [|done]].
    eexists; (split; [|reflexivity]); by apply lit_nonempty. }
  right; right. cbv [sliceHistory]. monad.
  destruct (ToNumber_run (Some limit) (initial fs)) as [[k Hk]|[e He]].
  - destruct h; try discriminate Hnull; rewrite Hk; try by eexists.
    by edestruct Harr.
  - destruct h; try discriminate Hnull; rewrite He; by eexists.
Qed.

Lemma invalidMessage_false v :
  invalidMessage v = false → ∃ msg, v = Some (JStr msg) ∧ blank msg = false.
Proof.
  destruct v as [[| | |s| |]|]; try discriminate.
  rewrite invalidMessage_blank. eauto.
Qed.

(** Every run of [chat] is of one of four kinds. *)
Lemma chat_cases req fs :
  let r := chat genAI StringToNumber ObjectToPrimitive req (initial fs) in
  (∃ e, r = (inl e, initial fs))
  ∨ rejected 400 r
  ∨ (∃ e, r = (inr tt, {| files := fs;
                          trace := [ConsoleError e;
                                    Send {| status := 500;
                                            json := Error (or_else (Js.message e)
                                                             (lit "Internal Server Error")) |}] |}))
  ∨ (∃ b msg entries n,
       body req = Some b
       ∧ get_prop b "message" = Some (JStr msg)
       ∧ blank msg = false
       ∧ default (JArr []) (get_prop b "history") = JArr entries
       ∧ Forall wellFormedEntry entries
       ∧ let c := ChatSendMessage model (map forwarded (slice entries n))
                    (Some (JStr msg)) in
         r = (inr tt, {| files := fs; trace := Upstream c :: relay genAI c |})).
Proof.
  destruct req as [[b|] f]; [|left; by eexists].
  destruct (is_null b) eqn:Hnull.
  { destruct b; try discriminate Hnull. left. by eexists. }
  destruct (invalidMessage (get_prop b "message")) eqn:Hm.
  { right; left. by apply chat_invalid_message_rejected. }
  apply invalidMessage_false in Hm as (msg & Hm & Hb).
  destruct (get_prop b "history") as [h|] eqn:Hh.
  - destruct (isValidHistory h) eqn:Hv.
    + destruct h; try discriminate Hv.
      destruct (chat_valid_history_cases b f msg elems fs Hm Hb) as [[e [_ He]]|[n [_ Hn]]];
        [by rewrite Hh|done| |].
      * right; right; left. by exists e.
      * right; right; right. exists b, msg, elems, (negate n).
        rewrite Hh. repeat split; try done. by apply wellFormed_isValidHistory.
    + assert (Hcase : (∃ entries, h = JArr entries) ∨ ∀ entries, h ≠ JArr entries)
        by (destruct h; eauto).
      destruct Hcase as [[entries ->]|Hno].
      * right; left. by eapply chat_invalid_history_rejected.
      * destruct (chat_other_history_cases b f msg h fs Hm Hb Hh Hno) as [?|[?|?]]; eauto.
  - destruct (chat_valid_history_cases b f msg [] fs Hm Hb) as [[e [_ He]]|[n [_ Hn]]];
      [by rewrite Hh|done| |].
    + right; right; left. by exists e.
    + right; right; right. exists b, msg, [], (negate n). rewrite Hh. by repeat split.
Qed.

End Runs.

(** X1. Whatever the request and the external API do, [chat] either
    throws before doing anything, or returns having answered exactly once
    and called upstream at most once. *)
Theorem chat_answers_once genAI StringToNumber ObjectToPrimitive req fs :
  let r := chat genAI StringToNumber ObjectToPrimitive req (initial fs) in
  (∃ e, r = (inl e, initial fs))
  ∨ (fst r = inr tt
     ∧ (∃ resp, responses (snd r) = [resp])
     ∧ (length (upstreamCalls (snd r)) ≤ 1)%nat).
Proof.
  intros r. subst r.
  pose proof (chat_cases genAI StringToNumber ObjectToPrimitive req fs) as H.
  cbv zeta in H.
  destruct H as [?|[(Hok & (m & _ & Hresp) & Hcalls)|[[e He]|(b & msg & entries & n & _ & _ & _ & _ & _ & He)]]].
  - by left.
  - right. rewrite Hcalls. split; [done|split; [by eexists|simpl; lia]].
  - right. rewrite He. split; [done|split; [by eexists|simpl; lia]].
  - right. simpl in He. rewrite He. unfold responses, upstreamCalls, relay.
    cbn [fst snd trace]. destruct (genAI _); simpl; (split; [done|split; [by eexists|lia]]).
Qed.

(** X2. [chat] calls upstream only with what it validated: the message
    is a string with something other than white space in it, the history
    (the empty list when left out) is a list of well-formed entries, and
    the history of the call is cut from the end of it. *)
Theorem chat_calls_only_validated genAI StringToNumber ObjectToPrimitive req fs call :
  call ∈ upstreamCalls (snd (chat genAI StringToNumber ObjectToPrimitive req (initial fs))) →
  ∃ b msg entries window,
    body req = Some b
    ∧ get_prop b "message" = Some (JStr msg)
    ∧ blank msg = false
    ∧ default (JArr []) (get_prop b "history") = JArr entries
    ∧ Forall wellFormedEntry entries
    ∧ window `suffix_of` entries
    ∧ call = ChatSendMessage model (map forwarded window) (Some (JStr msg)).
Proof.
  intros Hin.
  pose proof (chat_cases genAI StringToNumber ObjectToPrimitive req fs) as H.
  cbv zeta in H.
  destruct H as [[e He]|[(_ & _ & Hcalls)|[[e He]|(b & msg & entries & n & Hb & Hm & Hbl & Hh & Hv & He)]]].
  - rewrite He in Hin. by apply elem_of_nil in Hin.
  - rewrite Hcalls in Hin. by apply elem_of_nil in Hin.
  - rewrite He in Hin. by apply elem_of_nil in Hin.
  - simpl in He. rewrite He in Hin. unfold upstreamCalls, relay in Hin.
    cbn [snd trace] in Hin.
    assert (call = ChatSendMessage model (map forwarded (slice entries n)) (Some (JStr msg)))
      as -> by (destruct (genAI _); simpl in Hin; by apply list_elem_of_singleton in Hin).
    exists b, msg, entries, (slice entries n). repeat split; try done.
    apply slice_suffix.
Qed.

Lemma chat_calls_only_validated_witness :
  ∃ b msg entries window,
    body (Samples.post (Samples.chatBody "Hi" Samples.three 2)) = Some b
    ∧ get_prop b "message" = Some (JStr msg)
    ∧ blank msg = false
    ∧ default (JArr []) (get_prop b "history") = JArr entries
    ∧ Forall wellFormedEntry entries
    ∧ window `suffix_of` entries
    ∧ ChatSendMessage model (map forwarded (drop 1 Samples.three)) (Some (JStr (str "Hi")))
      = ChatSendMessage model (map forwarded window) (Some (JStr msg)).
Proof.
  apply (chat_calls_only_validated (Samples.answering "ok") Samples.noNumber
           Samples.noPrimitive (Samples.post (Samples.chatBody "Hi" Samples.three 2)) ∅).
  apply list_elem_of_here.
Defined.

(** X3. [history: null] is not caught by the validation: with a valid
    message, reading [history.length] throws outside the [try], and the
    handler ends without an answer and without a call. *)
Theorem chat_null_history_throws genAI StringToNumber ObjectToPrimitive b f fs :
  invalidMessage (get_prop b "message") = false →
  get_prop b "history" = Some JNull →
  chat genAI StringToNumber ObjectToPrimitive {| body := Some b; file := f |} (initial fs)
  = (inl (TypeError "Cannot read properties of null (reading 'length')"), initial fs).
Proof.
  intros Hm Hh. unfold chat. cbn [body].
  destruct b; try (vm_compute in Hh; discriminate Hh).
  monad. by rewrite Hm, Hh.
Qed.

Lemma chat_null_history_throws_witness :
  chat (Samples.answering "ok") Samples.noNumber Samples.noPrimitive
    (Samples.post (JObj [(str "message", JStr (str "Hi")); (str "history", JNull)]))
    (initial ∅)
  = (inl (TypeError "Cannot read properties of null (reading 'length')"), initial ∅).
Proof.
  apply (chat_null_history_throws (Samples.answering "ok") Samples.noNumber
           Samples.noPrimitive
           (JObj [(str "message", JStr (str "Hi")); (str "history", JNull)]) None ∅);
    reflexivity.
Defined.

(** X4. A history that is a number, a boolean or the empty string
    passes the validation (it has no positive length) and fails inside the
    [try]: with a valid message the answer is 500 with the [TypeError]'s
    message, and nothing is called upstream. *)
Theorem chat_scalar_history_answers_500 genAI StringToNumber ObjectToPrimitive
    b f h fs :
  invalidMessage (get_prop b "message") = false →
  get_prop b "history" = Some h →
  (∃ n, h = JNum n) ∨ (∃ x, h = JBool x) ∨ h = JStr [] →
  let r := chat genAI StringToNumber ObjectToPrimitive {| body := Some b; file := f |}
             (initial fs) in
  fst r = inr tt
  ∧ (∃ m, m ∈ ["history.slice is not a function";
               "recentHistory.map is not a function";
               "Cannot convert object to primitive value"]
          ∧ responses (snd r) = [{| status := 500; json := Error (lit m) |}])
  ∧ upstreamCalls (snd r) = [].
Proof.
  intros Hm Hh Hkind r. subst r. unfold chat. cbn [body].
  destruct b; try (vm_compute in Hh; discriminate Hh).
  monad. rewrite Hm, Hh. cbv [default from_option id].
  set (limit := match get_prop _ "historyLimit" with Some x => x | None => _ end).
  destruct (ToNumber_run StringToNumber ObjectToPrimitive (Some limit) (initial fs))
    as [[k Hk]|[e He]].
  - destruct Hkind as [[n ->]|[[x ->]| ->]]; cbv [sliceHistory]; monad;
      set (tl := ToNumber _ _ (Some limit)) in *;
      cbv [isValidHistory negb ToNumber get_prop]; monad;
      try rewrite bool_decide_eq_true_2 by reflexivity; monad;
      simpl (number_gt0 _); try change (0 <? Z.of_nat 0) with false;
      cbv beta iota; rewrite Hk;
      (split; [done|split; [|done]]); eexists; (split; [|reflexivity]);
      repeat first [apply list_elem_of_here | apply list_elem_of_further].
  - assert (e = TypeError "Cannot convert object to primitive value") as ->.
    { destruct limit as [| | | |o|o]; simpl in He; try discriminate He;
        destruct (ObjectToPrimitive _); by inversion He. }
    destruct Hkind as [[n ->]|[[x ->]| ->]]; cbv [sliceHistory]; monad;
      set (tl := ToNumber _ _ (Some limit)) in *;
      cbv [isValidHistory negb ToNumber get_prop]; monad;
      try rewrite bool_decide_eq_true_2 by reflexivity; monad;
      simpl (number_gt0 _); try change (0 <? Z.of_nat 0) with false;
      cbv beta iota; rewrite He;
      (split; [done|split; [|done]]); eexists; (split; [|reflexivity]);
      repeat first [apply list_elem_of_here | apply list_elem_of_further].
Qed.

Lemma chat_scalar_history_answers_500_witness :
  let r := chat (Samples.answering "ok") Samples.noNumber Samples.noPrimitive
             (Samples.post (JObj [(str "message", JStr (str "Hi"));
                                  (str "history", JNum (num 5))]))
             (initial ∅) in
  fst r = inr tt
  ∧ (∃ m, m ∈ ["history.slice is not a function";
               "recentHistory.map is not a function";
               "Cannot convert object to primitive value"]
          ∧ responses (snd r) = [{| status := 500; json := Error (lit m) |}])
  ∧ upstreamCalls (snd r) = [].
Proof.
  apply (chat_scalar_history_answers_500 (Samples.answering "ok") Samples.noNumber
           Samples.noPrimitive
           (JObj [(str "message", JStr (str "Hi")); (str "history", JNum (num 5))])
           None (JNum (num 5)) ∅).
  - reflexivity.
  - reflexivity.
  - left. by eexists.
Defined.

(** X5. A history that is a non-empty string is not a list and has a
    positive length: the request is answered 400, nothing is called. *)
Theorem chat_string_history_rejected genAI StringToNumber ObjectToPrimitive
    b f s fs :
  get_prop b "history" = Some (JStr s) →
  s ≠ [] →
  rejected 400 (chat genAI StringToNumber ObjectToPrimitive
                  {| body := Some b; file := f |} (initial fs)).
Proof.
  intros Hh Hs.
  destruct (invalidMessage (get_prop b "message")) eqn:Hm.
  { apply chat_invalid_message_rejected; [|done]. by destruct b. }
  unfold chat. cbn [body].
  destruct b; try (vm_compute in Hh; discriminate Hh).
  monad. rewrite Hm, Hh. cbv [default from_option id isValidHistory negb ToNumber get_prop].
  monad. rewrite bool_decide_eq_true_2 by reflexivity.
  assert (number_gt0 (num (Z.of_nat (length s))) = true) as ->.
  { destruct s; [done|]. simpl. apply Z.ltb_lt. lia. }
  split; [done|split; [|done]].
  eexists; (split; [|reflexivity]); by apply lit_nonempty.
Qed.

Lemma chat_string_history_rejected_witness :
  rejected 400 (chat (Samples.answering "ok") Samples.noNumber Samples.noPrimitive
                  (Samples.post (JObj [(str "message", JStr (str "Hi"));
                                       (str "history", JStr (str "earlier"))]))
                  (initial ∅)).
Proof.
  apply (chat_string_history_rejected (Samples.answering "ok") Samples.noNumber
           Samples.noPrimitive
           (JObj [(str "message", JStr (str "Hi")); (str "history", JStr (str "earlier"))])
           None (str "earlier") ∅).
  - reflexivity.
  - discriminate.
Defined.

Lemma slice_positive {A} (l : list A) (k : Z) :
  0 ≤ k → slice l (Finite (inject_Z k)) = drop (Z.to_nat k) l.
Proof.
  intros Hk. unfold slice, slice_start. simpl. rewrite Z.quot_1_r.
  destruct (Z.ltb_spec k 0); [lia|].
  destruct (Z.le_gt_cases k (Z.of_nat (length l))).
  - f_equal. lia.
  - rewrite !drop_ge by lia. done.
Qed.

Lemma chat_limit_run genAI StringToNumber ObjectToPrimitive b f msg entries n fs :
  get_prop b "message" = Some (JStr msg) →
  blank msg = false →
  default (JArr []) (get_prop b "history") = JArr entries →
  Forall wellFormedEntry entries →
  ToNumber StringToNumber ObjectToPrimitive
    (Some (default (JNum (num 10)) (get_prop b "historyLimit"))) (initial fs)
  = (inr n, initial fs) →
  upstreamCalls
    (snd (chat genAI StringToNumber ObjectToPrimitive {| body := Some b; file := f |}
            (initial fs)))
  = [ChatSendMessage model (map forwarded (slice entries (negate n))) (Some (JStr msg))].
Proof.
  intros Hm Hb Hh Hv Hn.
  apply wellFormed_isValidHistory in Hv.
  destruct (chat_valid_history_cases genAI StringToNumber ObjectToPrimitive
              b f msg entries fs Hm Hb Hh Hv) as [[e [He _]]|[n' [Hn' Hr]]].
  - rewrite Hn in He. discriminate He.
  - rewrite Hn in Hn'. injection Hn' as <-. simpl in Hr. rewrite Hr.
    unfold upstreamCalls, relay. cbn [snd trace]. by destruct (genAI _).
Qed.

Lemma slice_truncates {A} (l : list A) (q : Q) :
  0 ≤ Qnum q →
  slice l (negate (Finite q))
  = if Qnum q ÷ Z.pos (Qden q) =? 0 then l
    else drop (length l - Z.to_nat (Qnum q ÷ Z.pos (Qden q))) l.
Proof.
  intros Hq. unfold slice, slice_start. cbn [negate ToIntegerOrInfinity Qopp Qnum Qden].
  rewrite Z.quot_opp_l by lia.
  pose proof (Z.quot_pos (Qnum q) (Z.pos (Qden q)) Hq ltac:(lia)) as Ht.
  destruct (Z.eqb_spec (Qnum q ÷ Z.pos (Qden q)) 0) as [->|Hne].
  - simpl. by destruct l.
  - destruct (Z.ltb_spec (- (Qnum q ÷ Z.pos (Qden q))) 0); [|lia].
    f_equal. lia.
Qed.

(** X6. A negative limit counts from the front: with [historyLimit]
    [N < 0] the slice is [slice(-N)], so the first [-N] entries are dropped
    and everything after them is forwarded. *)
Theorem chat_negative_limit_drops_oldest genAI StringToNumber ObjectToPrimitive
    b f msg entries (N : Z) fs :
  ValidChat b msg entries (num N) →
  N < 0 →
  upstreamCalls
    (snd (chat genAI StringToNumber ObjectToPrimitive {| body := Some b; file := f |}
            (initial fs)))
  = [ChatSendMessage model (map forwarded (drop (Z.to_nat (- N)) entries))
       (Some (JStr msg))].
Proof.
  intros Hv HN. rewrite (chat_valid_calls _ _ _ _ _ _ _ _ _ Hv).
  change (negate (num N)) with (Finite (inject_Z (- N))).
  rewrite slice_positive by lia. done.
Qed.

Lemma chat_negative_limit_drops_oldest_witness :
  upstreamCalls
    (snd (chat (Samples.answering "ok") Samples.noNumber Samples.noPrimitive
            (Samples.post (Samples.chatBody "Hi" Samples.three (-2))) (initial ∅)))
  = [ChatSendMessage model (map forwarded (drop (Z.to_nat (- -2)) Samples.three))
       (Some (JStr (str "Hi")))].
Proof.
  apply (chat_negative_limit_drops_oldest (Samples.answering "ok") Samples.noNumber
           Samples.noPrimitive (Samples.chatBody "Hi" Samples.three (-2)) None
           (str "Hi") Samples.three (-2) ∅).
  - apply three_valid.
  - reflexivity.
Defined.

(** X7. A limit that is not an integer is truncated toward zero: for a
    limit [q >= 0] with integer part [t], the whole history is forwarded
    when [t = 0] (so for every limit below 1) and the last [t] entries
    otherwise. *)
Theorem chat_fractional_limit_truncates genAI StringToNumber ObjectToPrimitive
    b f msg entries (q : Q) fs :
  ValidChat b msg entries (Finite q) →
  0 ≤ Qnum q →
  let t := Qnum q ÷ Z.pos (Qden q) in
  upstreamCalls
    (snd (chat genAI StringToNumber ObjectToPrimitive {| body := Some b; file := f |}
            (initial fs)))
  = [ChatSendMessage model
       (map forwarded (if t =? 0 then entries
                       else drop (length entries - Z.to_nat t) entries))
       (Some (JStr msg))].
Proof.
  intros Hv Hq t. rewrite (chat_valid_calls _ _ _ _ _ _ _ _ _ Hv).
  by rewrite slice_truncates.
Qed.

Lemma chat_fractional_limit_truncates_witness :
  let body := JObj [(str "message", JStr (str "Hi"));
                    (str "history", JArr Samples.three);
                    (str "historyLimit", JNum (Finite (5 # 2)))] in
  let t := Qnum (5 # 2) ÷ Z.pos (Qden (5 # 2)) in
  upstreamCalls
    (snd (chat (Samples.answering "ok") Samples.noNumber Samples.noPrimitive
            (Samples.post body) (initial ∅)))
  = [ChatSendMessage model
       (map forwarded (if t =? 0 then Samples.three
                       else drop (length Samples.three - Z.to_nat t) Samples.three))
       (Some (JStr (str "Hi")))].
Proof.
  intros body.
  apply (chat_fractional_limit_truncates (Samples.answering "ok") Samples.noNumber
           Samples.noPrimitive body None (str "Hi") Samples.three (5 # 2) ∅).
  - split; try reflexivity.
    repeat constructor; apply validEntry_spec; reflexivity.
  - discriminate.
Defined.

(** X8. [historyLimit: null] (or [false]) is not replaced by the default
    10: it converts to 0, and the whole history of an otherwise valid
    request is forwarded. *)
Theorem chat_null_limit_forwards_all genAI StringToNumber ObjectToPrimitive
    b f msg entries limit fs :
  get_prop b "message" = Some (JStr msg) →
  blank msg = false →
  default (JArr []) (get_prop b "history") = JArr entries →
  Forall wellFormedEntry entries →
  get_prop b "historyLimit" = Some limit →
  limit = JNull ∨ limit = JBool false →
  upstreamCalls
    (snd (chat genAI StringToNumber ObjectToPrimitive {| body := Some b; file := f |}
            (initial fs)))
  = [ChatSendMessage model (map forwarded entries) (Some (JStr msg))].
Proof.
  intros Hm Hb Hh Hv Hl Hlimit.
  rewrite (chat_limit_run _ _ _ b f msg entries (num 0) fs Hm Hb Hh Hv).
  - by rewrite slice_zero.
  - rewrite Hl. by destruct Hlimit as [-> | ->].
Qed.

Lemma chat_null_limit_forwards_all_witness :
  let body := JObj [(str "message", JStr (str "Hi"));
                    (str "history", JArr Samples.three);
                    (str "historyLimit", JNull)] in
  upstreamCalls
    (snd (chat (Samples.answering "ok") Samples.noNumber Samples.noPrimitive
            (Samples.post body) (initial ∅)))
  = [ChatSendMessage model (map forwarded Samples.three) (Some (JStr (str "Hi")))].
Proof.
  intros body.
  apply (chat_null_limit_forwards_all (Samples.answering "ok") Samples.noNumber
           Samples.noPrimitive body None (str "Hi") Samples.three JNull ∅);
    try reflexivity.
  - repeat constructor; apply validEntry_spec; reflexivity.
  - by left.
Defined.

(** X9. POST /generate-text never throws: whatever the request and the
    external API do, the handler returns having answered exactly once,
    called upstream at most once, and left the disk as it was. *)
Theorem generateText_answers_once genAI req fs :
  let r := generateText genAI req (initial fs) in
  fst r = inr tt
  ∧ (∃ resp, responses (snd r) = [resp])
  ∧ (length (upstreamCalls (snd r)) ≤ 1)%nat
  ∧ files (snd r) = fs.
Proof.
  intros r. subst r. unfold generateText.
  destruct (truthy (body req)) eqn:Hb; cbn [negb].
  - destruct (body req) as [b|]; [|discriminate Hb].
    destruct b; try discriminate Hb; monad;
      (destruct (truthy (get_prop _ "prompt")); cbn [negb];
       [destruct (genAI _)|]; simpl; (split; [done|split; [by eexists|split; [lia|done]]])).
  - simpl. split; [done|split; [by eexists|split; [lia|done]]].
Qed.

(** X10. POST /generate-text with a truthy prompt (white space only
    counts: the prompt is not trimmed) makes one call, with temperature 0.5
    and the prompt as its only part, and relays the outcome: 200 with the
    text, or 500 with the error's message as it is, without a fallback. *)
Theorem generateText_relays_answer genAI b f fs :
  truthy (Some b) = true →
  truthy (get_prop b "prompt") = true →
  let r := generateText genAI {| body := Some b; file := f |} (initial fs) in
  let c := GenerateContent model (Some (1 # 2)%Q) [TextPart (get_prop b "prompt")] in
  upstreamCalls (snd r) = [c]
  ∧ responses (snd r) =
      [match genAI c with
       | Resolves text => {| status := 200; json := Output text |}
       | Rejects e => {| status := 500; json := Error (Js.message e) |}
       end].
Proof.
  intros Hb Hp r c. subst r c. unfold generateText. cbn [body]. rewrite Hb. cbn [negb].
  destruct b; try discriminate Hb; monad; rewrite Hp; cbn [negb];
    by destruct (genAI _).
Qed.

Lemma generateText_relays_answer_witness :
  let b := JObj [(str "prompt", JStr (str "  "))] in
  let r := generateText (Samples.failing (ErrorWith "quota exceeded"))
             {| body := Some b; file := None |} (initial ∅) in
  let c := GenerateContent model (Some (1 # 2)%Q) [TextPart (get_prop b "prompt")] in
  upstreamCalls (snd r) = [c]
  ∧ responses (snd r) =
      [match Samples.failing (ErrorWith "quota exceeded") c with
       | Resolves text => {| status := 200; json := Output text |}
       | Rejects e => {| status := 500; json := Error (Js.message e) |}
       end].
Proof.
  intros b.
  apply (generateText_relays_answer (Samples.failing (ErrorWith "quota exceeded"))
           b None ∅); reflexivity.
Defined.

Section Uploads.

Variable genAI : UpstreamCall → UpstreamResult.
Variable toBase64 : list Byte.byte → jsstring.

Lemma generateFromFile_call defaultPrompt fallbackMime missing b f contents fs :
  is_null b = false →
  fs !! path f = Some contents →
  let r := generateFromFile genAI toBase64 defaultPrompt fallbackMime missing
             {| body := Some b; file := Some f |} (initial fs) in
  let c := GenerateContent model None
             [TextPart (or_else (get_prop b "prompt") (lit defaultPrompt));
              InlineData (toBase64 contents)
                (if bool_decide (mimetype f = []) then str fallbackMime else mimetype f)] in
  upstreamCalls (snd r) = [c]
  ∧ responses (snd r) =
      [match genAI c with
       | Resolves text => {| status := 200; json := Output text |}
       | Rejects e => {| status := 500; json := Error (Js.message e) |}
       end].
Proof.
  intros Hb Hfile r c. subst r c. unfold generateFromFile. cbn [body file].
  rewrite bool_decide_eq_true_2 by by eexists. cbn [negb].
  cbv [deleteUploadedFile readFileSync unlinkSync]. monad.
  destruct b; try discriminate Hb;
    cbn [initial files trace]; rewrite Hfile; cbn [files trace]; rewrite Hfile;
    cbn [files trace app]; by destruct (genAI _).
Qed.

Lemma generateFromFile_unreadable defaultPrompt fallbackMime missing b f fs :
  fs !! path f = None →
  ∃ e, generateFromFile genAI toBase64 defaultPrompt fallbackMime missing
         {| body := b; file := Some f |} (initial fs)
       = (inl e, initial fs).
Proof.
  intros Hfile. unfold generateFromFile. cbn [body file].
  cbv [deleteUploadedFile readFileSync unlinkSync]. monad.
  destruct b as [[]|]; cbn [initial files trace]; try rewrite Hfile; by eexists.
Qed.

End Uploads.

(** X11. An attachment handler forwards the prompt of the form, or its
    own default when the prompt is absent or empty, with the file's
    contents in base64 under the uploaded MIME type, or under the
    handler's fallback type when that is empty; it relays the outcome as
    200 with the text or 500 with the error's message as it is. *)
Theorem attachment_forwards_file genAI toBase64 b f contents fs
    handler defaultPrompt fallbackMime :
  is_null b = false →
  fs !! path f = Some contents →
  (handler, defaultPrompt, fallbackMime)
    ∈ [(generateFromImage genAI toBase64, "Describe the image", "image/png");
       (generateFromDocument genAI toBase64, "Summarize the document", "application/pdf");
       (generateFromAudio genAI toBase64, "Transcribe the audio", "audio/mpeg")] →
  let r := handler {| body := Some b; file := Some f |} (initial fs) in
  let c := GenerateContent model None
             [TextPart (or_else (get_prop b "prompt") (lit defaultPrompt));
              InlineData (toBase64 contents)
                (if bool_decide (mimetype f = []) then str fallbackMime else mimetype f)] in
  upstreamCalls (snd r) = [c]
  ∧ responses (snd r) =
      [match genAI c with
       | Resolves text => {| status := 200; json := Output text |}
       | Rejects e => {| status := 500; json := Error (Js.message e) |}
       end].
Proof.
  intros Hb Hfile Hin.
  repeat (apply elem_of_cons in Hin as [Heq | Hin];
          [injection Heq as -> -> ->; by apply generateFromFile_call|]).
  by apply elem_of_nil in Hin.
Qed.

Lemma attachment_forwards_file_witness :
  let r := generateFromDocument (Samples.answering "A summary.") Samples.noBase64
             Samples.multipart (initial Samples.disk) in
  let c := GenerateContent model None
             [TextPart (or_else (get_prop (JObj []) "prompt") (lit "Summarize the document"));
              InlineData (Samples.noBase64 [Byte.x89; Byte.x50; Byte.x4e; Byte.x47])
                (if bool_decide (mimetype Samples.upload = []) then str "application/pdf"
                 else mimetype Samples.upload)] in
  upstreamCalls (snd r) = [c]
  ∧ responses (snd r) =
      [match Samples.answering "A summary." c with
       | Resolves text => {| status := 200; json := Output text |}
       | Rejects e => {| status := 500; json := Error (Js.message e) |}
       end].
Proof.
  apply (attachment_forwards_file (Samples.answering "A summary.") Samples.noBase64
           (JObj []) Samples.upload [Byte.x89; Byte.x50; Byte.x4e; Byte.x47] Samples.disk
           (generateFromDocument (Samples.answering "A summary.") Samples.noBase64)
           "Summarize the document" "application/pdf").
  - reflexivity.
  - reflexivity.
  - apply list_elem_of_further, list_elem_of_here.
Defined.

(** X12. If the uploaded file cannot be read, an attachment handler
    throws before its [try]: nothing is answered, nothing is called, and
    the disk is as it was. *)
Theorem attachment_unreadable_upload_throws genAI toBase64 b f fs handler :
  fs !! path f = None →
  handler ∈ [generateFromImage genAI toBase64;
             generateFromDocument genAI toBase64;
             generateFromAudio genAI toBase64] →
  ∃ e, handler {| body := b; file := Some f |} (initial fs) = (inl e, initial fs).
Proof.
  intros Hfile Hin.
  repeat (apply elem_of_cons in Hin as [-> | Hin];
          [by apply generateFromFile_unreadable|]).
  by apply elem_of_nil in Hin.
Qed.

Lemma attachment_unreadable_upload_throws_witness :
  ∃ e, generateFromAudio (Samples.answering "ok") Samples.noBase64
         Samples.multipart (initial ∅)
       = (inl e, initial ∅).
Proof.
  apply (attachment_unreadable_upload_throws (Samples.answering "ok") Samples.noBase64
           (Some (JObj [])) Samples.upload ∅).
  - reflexivity.
  - apply list_elem_of_further, list_elem_of_further, list_elem_of_here.
Defined.

End ServerExtras.

(* ===================================================================== *)
(** * The chat client: further properties of the session                  *)
(* ===================================================================== *)

Module ClientExtras.
Import Js Eff Client JsFacts ClientProofs.

Lemma settle_step outcome r s :
  inflight s = Some r →
  step (Settle outcome) s =
    let shown := messages s ++
                 [modelMessageOf match outcome with
                                 | Responded true (Some data) => replyText data
                                 | _ => placeholder
                                 end] in
    {| messages := shown; isLoading := false; messagesChanged := false;
       stored := Some shown; inflight := None |}.
Proof.
  intros Hr. exec. rewrite Hr. by destruct outcome as [|[] [[[reply|]]|]].
Qed.

Lemma settle_idle outcome s :
  inflight s = None → step (Settle outcome) s = s.
Proof. intros Hr. exec. by rewrite Hr. Qed.

Lemma clear_step s :
  step ClearChat s =
    {| messages := []; isLoading := isLoading s; messagesChanged := false;
       stored := Some []; inflight := inflight s |}.
Proof. by exec. Qed.

Lemma reload_step s :
  step Reload s =
    {| messages := default [] (stored s); isLoading := false; messagesChanged := false;
       stored := Some (default [] (stored s)); inflight := None |}.
Proof. exec. by destruct (stored s). Qed.

Lemma submit_loading value s : isLoading s = true → step (Submit value) s = s.
Proof. intros Hl. exec. by rewrite Hl. Qed.

Lemma submit_blank value s :
  isLoading s = false → messagesChanged s = false → trim value = [] →
  step (Submit value) s = s.
Proof.
  intros Hl Hc Ht. exec. rewrite Hl. rewrite bool_decide_eq_true_2 by done.
  exec. rewrite Hc. by destruct s.
Qed.

(** What every point of every session satisfies. *)
Lemma session_invariant s :
  reachable anyAction s →
  stored s = Some (messages s)
  ∧ messagesChanged s = false
  ∧ (isLoading s = true ↔ is_Some (inflight s)).
Proof.
  induction 1 as [saved|s a _ (Hst & Hch & Hl) _].
  - rewrite reload_step. cbn. repeat split; try done; by intros [? ?].
  - destruct a as [value|outcome| |].
    + destruct (decide (isLoading s = true)) as [Hload|Hload];
        [by rewrite submit_loading|].
      apply not_true_is_false in Hload.
      destruct (decide (trim value = [])) as [Ht|Ht]; [by rewrite submit_blank|].
      rewrite (submit_step value s Hload Ht). cbn.
      repeat split; try done; by eexists.
    + destruct (inflight s) as [r|] eqn:Hr; [|by rewrite (settle_idle _ _ Hr), Hr].
      rewrite (settle_step outcome r s Hr). cbn.
      repeat split; try done; by intros [? ?].
    + rewrite clear_step. cbn. split; [done|split; [done|exact Hl]].
    + rewrite reload_step. cbn. repeat split; try done; by intros [? ?].
Qed.

Lemma first_turn_reachable :
  reachable anyAction (step (Submit (str "Hi")) (step Reload (browser (Some Samples.earlier)))).
Proof. apply reach_step; [apply reach_load|exact I]. Qed.

(** X13. At every point of every session the item in local storage
    holds exactly the messages shown. *)
Theorem stored_mirrors_shown s :
  reachable anyAction s → stored s = Some (messages s).
Proof. intros Hs. by destruct (session_invariant s Hs) as (? & _). Qed.

Lemma stored_mirrors_shown_witness :
  let s := step (Submit (str "Hi")) (step Reload (browser (Some Samples.earlier))) in
  stored s = Some (messages s).
Proof.
  apply (stored_mirrors_shown
           (step (Submit (str "Hi")) (step Reload (browser (Some Samples.earlier))))).
  apply first_turn_reachable.
Defined.

(** X14. At most one request is in flight: at every point of every
    session [isLoading] holds exactly when a request awaits its reply, and
    then pressing Send changes nothing and sends nothing. *)
Theorem single_request_in_flight s :
  reachable anyAction s →
  (isLoading s = true ↔ is_Some (inflight s))
  ∧ (is_Some (inflight s) → ∀ value, step (Submit value) s = s).
Proof.
  intros Hs. destruct (session_invariant s Hs) as (_ & _ & Hl).
  split; [done|]. intros Hin value. apply submit_loading. by apply Hl.
Qed.

Lemma single_request_in_flight_witness :
  let s := step (Submit (str "Hi")) (step Reload (browser (Some Samples.earlier))) in
  (isLoading s = true ↔ is_Some (inflight s))
  ∧ (is_Some (inflight s) → ∀ value, step (Submit value) s = s).
Proof.
  apply (single_request_in_flight
           (step (Submit (str "Hi")) (step Reload (browser (Some Samples.earlier))))).
  apply first_turn_reachable.
Defined.

(** X15. Submitting an input that is empty or white space only changes
    nothing: no message is appended, nothing is stored, no request
    leaves. *)
Theorem blank_submit_changes_nothing s value :
  reachable anyAction s →
  trim value = [] →
  dispatch (Submit value) s = (inr tt, s).
Proof.
  intros Hs Ht. destruct (session_invariant s Hs) as (_ & Hc & _).
  exec. destruct (isLoading s); [done|].
  rewrite bool_decide_eq_true_2 by done. exec. rewrite Hc. by destruct s.
Qed.

Lemma blank_submit_changes_nothing_witness :
  let s := step Reload (browser (Some Samples.earlier)) in
  dispatch (Submit (str "   ")) s = (inr tt, s).
Proof.
  apply (blank_submit_changes_nothing (step Reload (browser (Some Samples.earlier)))
           (str "   ")).
  - apply reach_load.
  - reflexivity.
Defined.

(** X16. Loading the page again at any point of a session shows the
    same messages and leaves the stored item as it is; the request in
    flight, if any, is forgotten and the input is enabled. *)
Theorem reload_restores_conversation s :
  reachable anyAction s →
  messages (step Reload s) = messages s
  ∧ stored (step Reload s) = stored s
  ∧ isLoading (step Reload s) = false
  ∧ inflight (step Reload s) = None.
Proof.
  intros Hs. destruct (session_invariant s Hs) as (Hst & _ & _).
  rewrite reload_step, Hst. by cbn.
Qed.

Lemma reload_restores_conversation_witness :
  let s := step (Submit (str "Hi")) (step Reload (browser (Some Samples.earlier))) in
  messages (step Reload s) = messages s
  ∧ stored (step Reload s) = stored s
  ∧ isLoading (step Reload s) = false
  ∧ inflight (step Reload s) = None.
Proof.
  apply (reload_restores_conversation
           (step (Submit (str "Hi")) (step Reload (browser (Some Samples.earlier))))).
  apply first_turn_reachable.
Defined.

(** X17. Apart from Clear Chat, no action removes or changes a message:
    the messages shown before it are a prefix of those shown after. *)
Theorem messages_only_grow s a :
  reachable anyAction s →
  a ≠ ClearChat →
  messages s `prefix_of` messages (step a s).
Proof.
  intros Hs Ha. destruct (session_invariant s Hs) as (Hst & Hc & _).
  destruct a as [value|outcome| |]; [| | done |].
  - destruct (decide (isLoading s = true)) as [Hl|Hl]; [by rewrite submit_loading|].
    apply not_true_is_false in Hl.
    destruct (decide (trim value = [])) as [Ht|Ht]; [by rewrite submit_blank|].
    rewrite (submit_step value s Hl Ht). cbn. by apply prefix_app_r.
  - destruct (inflight s) as [r|] eqn:Hr; [|by rewrite settle_idle].
    rewrite (settle_step outcome r s Hr). cbn. by apply prefix_app_r.
  - rewrite reload_step, Hst. by cbn.
Qed.

Lemma messages_only_grow_witness :
  let s := step (Submit (str "Hi")) (step Reload (browser (Some Samples.earlier))) in
  messages s `prefix_of` messages (step (Settle NetworkFailure) s).
Proof.
  apply (messages_only_grow
           (step (Submit (str "Hi")) (step Reload (browser (Some Samples.earlier))))
           (Settle NetworkFailure)).
  - apply first_turn_reachable.
  - discriminate.
Defined.

(** X18. When the response is OK and its body parses, one model message
    is appended, stored, and the input enabled; nothing is thrown.  Its
    text is the answer's [output] when that is a non-empty string (as it
    is, white space included), and "No response from Gemini." when the
    output is missing or empty. *)
Theorem ok_reply_appended s r data :
  inflight s = Some r →
  ∃ s',
    dispatch (Settle (Responded true (Some data))) s = (inr tt, s')
    ∧ messages s' = messages s ++ [modelMessageOf (replyText data)]
    ∧ stored s' = Some (messages s')
    ∧ isLoading s' = false
    ∧ (∀ reply, output data = Some reply → reply ≠ [] → replyText data = reply)
    ∧ (output data = None ∨ output data = Some [] →
       replyText data = str "No response from Gemini.").
Proof.
  intros Hr. exec. rewrite Hr. eexists. split; [reflexivity|].
  cbn. unfold replyText. repeat split; try done.
  - intros reply -> Hne. by rewrite bool_decide_eq_false_2.
  - by intros [-> | ->].
Qed.

Lemma ok_reply_appended_witness :
  ∃ s',
    dispatch (Settle (Responded true (Some {| output := Some (str "Hello!") |})))
      (step (Submit (str "Hi")) (step Reload (browser None)))
    = (inr tt, s')
    ∧ messages s' = [userMessageOf (str "Hi")]
                    ++ [modelMessageOf (replyText {| output := Some (str "Hello!") |})]
    ∧ stored s' = Some (messages s')
    ∧ isLoading s' = false
    ∧ (∀ reply, output {| output := Some (str "Hello!") |} = Some reply → reply ≠ [] →
       replyText {| output := Some (str "Hello!") |} = reply)
    ∧ (output {| output := Some (str "Hello!") |} = None
       ∨ output {| output := Some (str "Hello!") |} = Some [] →
       replyText {| output := Some (str "Hello!") |} = str "No response from Gemini.").
Proof.
  apply (ok_reply_appended (step (Submit (str "Hi")) (step Reload (browser None)))
           {| message := str "Hi"; history := []; historyLimit := 10 |}
           {| output := Some (str "Hello!") |}).
  reflexivity.
Defined.

(** X19. An OK response whose body is not JSON ends like a failed
    request: the placeholder is appended as one model message, nothing is
    thrown, and the input is enabled. *)
Theorem unparsable_reply_appends_placeholder s r :
  inflight s = Some r →
  ∃ s',
    dispatch (Settle (Responded true None)) s = (inr tt, s')
    ∧ messages s' = messages s ++ [modelMessageOf placeholder]
    ∧ stored s' = Some (messages s')
    ∧ isLoading s' = false.
Proof. intros Hr. exec. rewrite Hr. by eexists. Qed.

Lemma unparsable_reply_appends_placeholder_witness :
  ∃ s',
    dispatch (Settle (Responded true None))
      (step (Submit (str "Hi")) (step Reload (browser None)))
    = (inr tt, s')
    ∧ messages s' = [userMessageOf (str "Hi")] ++ [modelMessageOf placeholder]
    ∧ stored s' = Some (messages s')
    ∧ isLoading s' = false.
Proof.
  apply (unparsable_reply_appends_placeholder
           (step (Submit (str "Hi")) (step Reload (browser None)))
           {| message := str "Hi"; history := []; historyLimit := 10 |}).
  reflexivity.
Defined.

(** X20. Clear Chat does not cancel the request in flight: when its
    reply (or failure) arrives afterwards, it is appended to the emptied
    list, so the conversation shown and stored is that one model
    message. *)
Theorem reply_after_clear_is_kept s r outcome :
  inflight s = Some r →
  let s' := step (Settle outcome) (step ClearChat s) in
  ∃ m,
    messages s' = [m]
    ∧ sender m = str "model"
    ∧ stored s' = Some [m]
    ∧ isLoading s' = false.
Proof.
  intros Hr s'. subst s'. rewrite clear_step.
  rewrite (settle_step outcome r) by done. cbn. by eexists.
Qed.

Lemma reply_after_clear_is_kept_witness :
  let s' := step (Settle NetworkFailure)
              (step ClearChat
                 (step (Submit (str "Hi")) (step Reload (browser (Some Samples.earlier))))) in
  ∃ m,
    messages s' = [m]
    ∧ sender m = str "model"
    ∧ stored s' = Some [m]
    ∧ isLoading s' = false.
Proof.
  apply (reply_after_clear_is_kept
           (step (Submit (str "Hi")) (step Reload (browser (Some Samples.earlier))))
           {| message := str "Hi"; history := map toEntry Samples.earlier;
              historyLimit := 10 |}
           NetworkFailure).
  reflexivity.
Defined.

Lemma trim_not_blank value : trim value ≠ [] → blank (trim value) = false.
Proof.
  intros Hne. apply not_true_is_false. intros Hb. apply Hne.
  unfold trim, trimEnd in *. rewrite blank_rev in Hb.
  apply trimStart_blank in Hb. by rewrite Hb.
Qed.

Lemma entry_wellFormed m :
  Server.wellFormedEntry (entryJson (toEntry m)) ↔ acceptable m.
Proof.
  rewrite <- ServerProofs.validEntry_spec. unfold acceptable.
  unfold Server.validEntry, entryJson, toEntry. cbn [role entryText].
  change (get_prop (JObj ?p) "role") with (own_prop p (str "role")).
  change (get_prop (JObj ?p) "text") with (own_prop p (str "text")).
  change (own_prop [(str "role", JStr (sender m)); (str "text", JStr (text m))] (str "role"))
    with (Some (JStr (sender m))).
  change (own_prop [(str "role", JStr (sender m)); (str "text", JStr (text m))] (str "text"))
    with (Some (JStr (text m))).
  cbn [typeof is_null negb]. rewrite trim_nil_dec.
  rewrite !bool_decide_eq_true_2 by reflexivity. cbn [andb].
  rewrite andb_true_r, andb_true_iff, orb_true_iff, negb_true_iff,
    !ServerProofs.strict_eq_str_true.
  split; intros [[H|H] Hb]; (split; [|done]); [left|right|left|right]; congruence.
Qed.

(** X21. A whole turn, client to upstream. When every message shown is
    acceptable to the proxy, the request of a submission passes the
    proxy's validation, and the one upstream call carries the trimmed
    input as message and, as history, the last ten of the messages shown
    before it (all of them when there are at most ten), in order. *)
Theorem turn_reaches_upstream genAI StringToNumber ObjectToPrimitive fs s value :
  isLoading s = false →
  trim value ≠ [] →
  Forall acceptable (messages s) →
  ∃ r,
    inflight (step (Submit value) s) = Some r
    ∧ Server.upstreamCalls
        (snd (Server.chat genAI StringToNumber ObjectToPrimitive (posted r)
                (Server.initial fs)))
      = [Server.ChatSendMessage Server.model
           (map (λ m, Server.forwarded (entryJson (toEntry m)))
              (drop (length (messages s) - 10) (messages s)))
           (Some (JStr (trim value)))].
Proof.
  intros Hl Ht Hok. rewrite (submit_step value s Hl Ht). cbn [inflight].
  eexists. split; [reflexivity|]. unfold posted.
  rewrite (ServerProofs.chat_valid_calls _ _ _ _ _ (trim value)
             (map entryJson (map toEntry (messages s))) (num 10)).
  - rewrite slice_negative by done. rewrite !length_map.
    change (Z.to_nat 10) with 10%nat.
    by rewrite <- !fmap_drop, !map_map.
  - split; try reflexivity.
    + by apply trim_not_blank.
    + rewrite !Forall_fmap. eapply Forall_impl; [exact Hok|].
      intros m Hm. by apply entry_wellFormed.
Qed.

Lemma turn_reaches_upstream_witness :
  let s := step Reload (browser (Some Samples.earlier)) in
  ∃ r,
    inflight (step (Submit (str " Hi ")) s) = Some r
    ∧ Server.upstreamCalls
        (snd (Server.chat (Samples.answering "ok") Samples.noNumber Samples.noPrimitive
                (posted r) (Server.initial ∅)))
      = [Server.ChatSendMessage Server.model
           (map (λ m, Server.forwarded (entryJson (toEntry m)))
              (drop (length (messages s) - 10) (messages s)))
           (Some (JStr (trim (str " Hi "))))].
Proof.
  apply (turn_reaches_upstream (Samples.answering "ok") Samples.noNumber
           Samples.noPrimitive ∅ (step Reload (browser (Some Samples.earlier)))
           (str " Hi ")).
  - reflexivity.
  - discriminate.
  - change (Forall acceptable Samples.earlier).
    apply Forall_cons; split; [split; [by left|reflexivity]|].
    apply Forall_cons; split; [split; [by right|reflexivity]|].
    by apply Forall_nil.
Defined.

(** X22. One unacceptable message blocks every later turn. If a message
    shown has white space only as its text (a reply of spaces is appended
    as it is) or a sender that is no role, the request of the next
    submission is answered 400 by the proxy and nothing is called
    upstream. *)
Theorem unacceptable_message_blocks_turn genAI StringToNumber ObjectToPrimitive
    fs s value :
  isLoading s = false →
  trim value ≠ [] →
  Exists (λ m, ¬ acceptable m) (messages s) →
  ∃ r,
    inflight (step (Submit value) s) = Some r
    ∧ Server.rejected 400
        (Server.chat genAI StringToNumber ObjectToPrimitive (posted r)
           (Server.initial fs)).
Proof.
  intros Hl Ht Hbad. rewrite (submit_step value s Hl Ht). cbn [inflight].
  eexists. split; [reflexivity|]. unfold posted.
  eapply ServerProofs.chat_invalid_history_rejected; [reflexivity|].
  apply not_true_is_false. intros Hv.
  apply ServerProofs.wellFormed_isValidHistory in Hv.
  cbn [history] in Hv. rewrite !Forall_fmap in Hv.
  apply Exists_exists in Hbad as (m & Hm & Hno).
  apply Hno, entry_wellFormed. by apply (proj1 (Forall_forall _ _) Hv m Hm).
Qed.

Lemma unacceptable_message_blocks_turn_witness :
  let s := step (Settle (Responded true (Some {| output := Some (str "  ") |})))
             (step (Submit (str "Hi")) (step Reload (browser None))) in
  ∃ r,
    inflight (step (Submit (str "Again")) s) = Some r
    ∧ Server.rejected 400
        (Server.chat (Samples.answering "ok") Samples.noNumber Samples.noPrimitive
           (posted r) (Server.initial ∅)).
Proof.
  apply (unacceptable_message_blocks_turn (Samples.answering "ok") Samples.noNumber
           Samples.noPrimitive ∅
           (step (Settle (Responded true (Some {| output := Some (str "  ") |})))
              (step (Submit (str "Hi")) (step Reload (browser None))))
           (str "Again")).
  - reflexivity.
  - discriminate.
  - apply Exists_cons_tl, Exists_cons_hd. intros [_ Hb]. discriminate Hb.
Defined.

End ClientExtras.
